(** * The building-telemetry simulator of lab04: processes, devices, environment

    A shallow embedding of [lab04/scripts/processes.py] and
    [lab04/scripts/env_sim.py].

    Conventions.
    - A Python object is a record of its attributes; a method that mutates
      [self] is a function returning the new record.
    - Python floats that are finite are rationals, and [<] and [==] on them are
      exact, so a float that is only stored, passed on and compared is a [Q].
      The one conversion that the modelled code makes, [float(value)], is
      the rounding to the nearest float.
    - Python ints are [Z].
    - [None] as "no reading" is [None : option Q].
    - numpy's global random generator is an explicit state, threaded through
      the [Rand] monad.
    - A raised exception is the [Raise] case of [result]. *)

From Stdlib Require Import ZArith QArith Qabs Qround Lia Lqa.
From stdpp Require Import base list gmap strings.

Close Scope Q_scope.
Open Scope Z_scope.

(** ** Exceptions *)

Inductive exn := IndexError | KeyError | OverflowError.

Inductive result (A : Type) :=
| Ok (a : A)
| Raise (e : exn).
Arguments Ok {A} a.
Arguments Raise {A} e.

Definition result_bind {A B} (r : result A) (k : A -> result B) : result B :=
  match r with
  | Ok a => k a
  | Raise e => Raise e
  end.

Declare Scope result_scope.
Delimit Scope result_scope with result.
Notation "'try' x := r 'in' k" := (result_bind r (fun x => k))
  (at level 10, x name, r at level 100, k at level 200) : result_scope.

(** [l[i]] for an index that is never negative: [IndexError] past the end. *)
Definition index {A} (l : list A) (i : nat) : result A :=
  match l !! i with
  | Some a => Ok a
  | None => Raise IndexError
  end.

(** ** float()

    [float(value)] is the binary64 number nearest to [value], ties going to
    the even one: the number itself when it is a float already, a rounded
    one for an int of more than 53 bits, and [OverflowError] for an int
    beyond the range of the floats. *)

Definition pow2 (e : Z) : Q := Qpower (2 # 1) e.

(** The [e] with [2^e <= a < 2^(e+1)], for [a > 0]. *)
Definition floor_log2 (a : Q) : Z :=
  let e := Z.log2 (Qnum a) - Z.log2 (Zpos (Qden a)) in
  if Qle_bool (pow2 e) a then e else e - 1.

Definition round_half_even (x : Q) : Z :=
  let f := Qfloor x in
  match Qcompare (x - inject_Z f) (1 # 2) with
  | Lt => f
  | Gt => f + 1
  | Eq => if Z.even f then f else f + 1
  end.

Definition float (x : Q) : result Q :=
  if Qeq_bool x 0 then Ok 0%Q
  else
    let a := Qabs x in
    let ulp := pow2 (Z.max (floor_log2 a - 52) (-1074)) in
    let r := (inject_Z (round_half_even (a / ulp)) * ulp)%Q in
    if Qle_bool (pow2 1024) r then Raise OverflowError
    else Ok (Qred (if Qle_bool 0 x then r else - r)).
Arguments float : simpl never.

(** ** The random source

    [numpy.random] keeps one hidden generator.  Its outcomes are modelled by
    tapes: the [n]-th draw of the run reads position [n] of the tape of its
    kind.  Quantifying over the tapes quantifies over every outcome of every
    draw.  [random()] returns a float in the half-open interval [0, 1), which
    is what [fair] says of the uniform tape; [poisson(lam)] returns a
    non-negative integer (the tape over-approximates its distribution: the
    rate is not consulted). *)

Record Rng := {
  uniform_tape : nat -> Q;
  poisson_tape : nat -> N;
  drawn : nat
}.

Definition advance (g : Rng) : Rng :=
  {| uniform_tape := uniform_tape g;
     poisson_tape := poisson_tape g;
     drawn := S (drawn g) |}.

Definition fair (g : Rng) : Prop :=
  forall i, (0 <= uniform_tape g i)%Q /\ (uniform_tape g i < 1)%Q.

#[universes(polymorphic)] Definition Rand (A : Type) : Type := Rng -> A * Rng.

Definition ret {A} (a : A) : Rand A := fun g => (a, g).

Definition bind {A B} (c : Rand A) (k : A -> Rand B) : Rand B :=
  fun g => let (a, g') := c g in k a g'.

Declare Scope rand_scope.
Delimit Scope rand_scope with rand.
Notation "'draw' x := c 'in' k" := (bind c (fun x => k))
  (at level 10, x name, c at level 100, k at level 200) : rand_scope.

Definition random : Rand Q :=
  fun g => (uniform_tape g (drawn g), advance g).

Definition poisson (lam : Q) : Rand N :=
  fun g => (poisson_tape g (drawn g), advance g).

(** [x < y] on floats. *)
Definition Qltb (x y : Q) : bool := negb (Qle_bool y x).

(** ** References between processes

    A process that depends on another one holds a reference to it and calls
    its [get()] when it needs the value; it never steps it.  [ref] is the
    identity of the referenced object and [readings] is what [get()] of every
    object returns at the moment of the call. *)

Definition ref := nat.
Definition readings := ref -> Q.

(** ** processes.py *)

(** The abstract base class [Process].  The classes whose [get()] calls
    [get()] of other objects ([SumProcess], [ProductProcess],
    [TransformedProcess]) are not part of this development. *)
Module Process.

Class Interface (P : Type) := {
  step : readings -> P -> Rand (result P);
  get : P -> Q
}.

End Process.

Module ConstantProcess.

Record state := { value : Q }.

Definition init (value : Q) : state := {| value := value |}.

Definition step (self : state) : state := self.

Definition get (self : state) : Q := value self.

#[global] Instance process : Process.Interface state :=
  {| Process.step := fun _ self => ret (Ok (step self));
     Process.get := get |}.

End ConstantProcess.

Module BirthDeathProcess.

Record state := {
  birth_rate : ref;
  death_rate : ref;
  value : Z;
  limit : Z
}.

Definition init (birth_rate death_rate : ref) (init limit : Z) : state :=
  {| birth_rate := birth_rate; death_rate := death_rate;
     value := init; limit := limit |}.

Definition set_value (self : state) (v : Z) : state :=
  {| birth_rate := birth_rate self; death_rate := death_rate self;
     value := v; limit := limit self |}.

(** A call of [step()] that returns.  Both draws come before the first
    assignment to [self.value]; a call in which numpy rejects a rate leaves
    the object as it was, see [BirthDeathProcess_step_checked] below. *)
Definition step (rd : readings) (self : state) : Rand state :=
  (let _lambda := rd (birth_rate self) in
   draw n_birth := poisson _lambda in
   let _mu := rd (death_rate self) in
   draw n_death := poisson _mu in
   let self := set_value self (value self + Z.of_N n_birth) in
   let self := if limit self >? 0
               then set_value self (Z.min (limit self) (value self))
               else self in
   ret (set_value self (Z.max 0 (value self - Z.of_N n_death))))%rand.

Definition get (self : state) : Z := value self.

#[global] Instance process : Process.Interface state :=
  {| Process.step := fun rd self =>
       (draw self' := step rd self in ret (Ok self'))%rand;
     Process.get := fun self => inject_Z (get self) |}.

End BirthDeathProcess.

Module PwConstantProcess.

Record state := {
  phase_lengths : list Z;
  values : list Q;
  seasonal : bool;
  t : Z;
  phase : nat;
  value : Q
}.

(** [values[0]] raises on an empty list. *)
Definition init (phase_lengths : list Z) (values : list Q) (seasonal : bool)
  : result state :=
  (try v := index values 0 in
   Ok {| phase_lengths := phase_lengths; values := values;
         seasonal := seasonal; t := 0; phase := 0%nat; value := v |})%result.

Definition step (self : state) : result state :=
  (let t1 := t self + 1 in
   try len := index (phase_lengths self) (phase self) in
   if t1 >? len then
     let phase1 := S (phase self) in
     let phase2 :=
       if seasonal self
          && (Z.of_nat phase1 >? Z.of_nat (length (values self)) - 1)
       then 0%nat else phase1 in
     try v := index (values self) phase2 in
     Ok {| phase_lengths := phase_lengths self; values := values self;
           seasonal := seasonal self; t := 0; phase := phase2; value := v |}
   else
     Ok {| phase_lengths := phase_lengths self; values := values self;
           seasonal := seasonal self; t := t1; phase := phase self;
           value := value self |})%result.

Definition get (self : state) : Q := value self.

(** [n] calls of [step()] in a row; the first exception ends the run. *)
Fixpoint steps (n : nat) (self : state) : result state :=
  match n with
  | O => Ok self
  | S n => result_bind (steps n self) step
  end.

#[global] Instance process : Process.Interface state :=
  {| Process.step := fun _ self => ret (step self);
     Process.get := get |}.

End PwConstantProcess.

Module OnOffProcess.

Record state := {
  on_to_off_prob : ref;
  off_to_on_prob : ref;
  value : Z
}.

Definition init (on_to_off_prob off_to_on_prob : ref) : state :=
  {| on_to_off_prob := on_to_off_prob; off_to_on_prob := off_to_on_prob;
     value := 0 |}.

Definition set_value (self : state) (v : Z) : state :=
  {| on_to_off_prob := on_to_off_prob self;
     off_to_on_prob := off_to_on_prob self; value := v |}.

Definition step (rd : readings) (self : state) : Rand state :=
  (if value self =? 0 then
     draw u := random in
     if Qltb u (rd (off_to_on_prob self))
     then ret (set_value self 1) else ret self
   else
     draw u := random in
     if Qltb u (rd (on_to_off_prob self))
     then ret (set_value self 0) else ret self)%rand.

Definition get (self : state) : Z := value self.

#[global] Instance process : Process.Interface state :=
  {| Process.step := fun rd self =>
       (draw self' := step rd self in ret (Ok self'))%rand;
     Process.get := fun self => inject_Z (get self) |}.

End OnOffProcess.

(** [n] ticks of an object whose [step()] draws random numbers and reads
    other processes.  Between two calls the environment steps the other
    objects, so each tick comes with its own readings: [sched k] is what
    the referenced processes return during call number [k] (from 0). *)
Fixpoint run {Obj : Type} (step : readings -> Obj -> Rand Obj)
    (sched : nat -> readings) (n : nat) (self : Obj) : Rand Obj :=
  match n with
  | O => ret self
  | S n => (draw self' := run step sched n self in step (sched n) self')%rand
  end.

(** ** env_sim.py *)

Module Measurement.

(** [distortion] is any callable from float to float; it may draw random
    numbers (as [add_gauss_noise] does). *)
Record state := {
  process : ref;
  distortion : Q -> Rand Q
}.

Definition get (rd : readings) (self : state) : Rand Q :=
  distortion self (rd (process self)).

End Measurement.

Definition identity (x : Q) : Rand Q := ret x.

(** The abstract base class [Device]. *)
Module Device.

Class Interface (D : Type) := {
  step : readings -> D -> Rand D;
  get : D -> option Q;
  get_influx_meas : D -> string;
  get_tags : D -> gmap string string
}.

End Device.

Module BasicDevice.

Record state := {
  name : string;
  measurement : Measurement.state;
  p_skip : Q;
  value : option Q;
  tags : gmap string string;
  influx_meas : string
}.

Definition set_value (self : state) (v : option Q) : state :=
  {| name := name self; measurement := measurement self;
     p_skip := p_skip self; value := v; tags := tags self;
     influx_meas := influx_meas self |}.

Definition init (rd : readings) (name : string)
    (measurement : Measurement.state) (p_skip : Q)
    (influx_meas : string) (influx_tags : gmap string string) : Rand state :=
  (draw v := Measurement.get rd measurement in
   ret {| name := name; measurement := measurement; p_skip := p_skip;
          value := Some v; tags := influx_tags;
          influx_meas := influx_meas |})%rand.

Definition step (rd : readings) (self : state) : Rand state :=
  (draw self :=
     (if Qeq_bool (p_skip self) 0
      then draw v := Measurement.get rd (measurement self) in
           ret (set_value self (Some v))
      else ret self) in
   draw u := random in
   let skip := Qltb u (p_skip self) in
   if skip then ret (set_value self None)
   else draw v := Measurement.get rd (measurement self) in
        ret (set_value self (Some v)))%rand.

Definition get (self : state) : option Q := value self.

Definition get_influx_meas (self : state) : string := influx_meas self.

Definition get_tags (self : state) : gmap string string := tags self.

#[global] Instance device : Device.Interface state :=
  {| Device.step := step; Device.get := get;
     Device.get_influx_meas := get_influx_meas;
     Device.get_tags := get_tags |}.

End BasicDevice.

Module DoomedDevice.
Section Wrapping.
Context {B : Type} `{Device.Interface B}.

Record state := {
  name : string;
  base_device : B;
  time_remaining : Z
}.

Definition init (name : string) (base_device : B) (lifetime : Z) : state :=
  {| name := name; base_device := base_device; time_remaining := lifetime |}.

(** [self.base_device.step()] mutates the wrapped object, which the
    wrapper holds by reference; here the wrapper holds its record, and
    stepping replaces it.  (In [lab_env.py] a wrapped device is reachable
    through its wrapper only.) *)
Definition step (rd : readings) (self : state) : Rand state :=
  (draw base := Device.step rd (base_device self) in
   let self := {| name := name self; base_device := base;
                  time_remaining := time_remaining self |} in
   if time_remaining self >? 0
   then ret {| name := name self; base_device := base_device self;
               time_remaining := time_remaining self - 1 |}
   else ret self)%rand.

Definition get (self : state) : option Q :=
  if time_remaining self =? 0 then None
  else Device.get (base_device self).

Definition get_influx_meas (self : state) : string :=
  Device.get_influx_meas (base_device self).

Definition get_tags (self : state) : gmap string string :=
  Device.get_tags (base_device self).

End Wrapping.
Arguments state B : clear implicits.

#[global] Instance device {B} `{Device.Interface B}
  : Device.Interface (state B) :=
  {| Device.step := step; Device.get := get;
     Device.get_influx_meas := get_influx_meas;
     Device.get_tags := get_tags |}.

End DoomedDevice.

Module StickyDevice.
Section Wrapping.
Context {B : Type} `{Device.Interface B}.

Record state := {
  name : string;
  base_device : B;
  time_remaining : Z;
  value : option Q
}.

Definition init (name : string) (base_device : B) (lifetime : Z) : state :=
  {| name := name; base_device := base_device; time_remaining := lifetime;
     value := Device.get base_device |}.

Definition step (rd : readings) (self : state) : Rand state :=
  (draw base := Device.step rd (base_device self) in
   let self := {| name := name self; base_device := base;
                  time_remaining := time_remaining self;
                  value := value self |} in
   if time_remaining self >? 0
   then ret {| name := name self; base_device := base_device self;
               time_remaining := time_remaining self - 1;
               value := Device.get (base_device self) |}
   else ret self)%rand.

Definition get (self : state) : option Q := value self.

Definition get_influx_meas (self : state) : string :=
  Device.get_influx_meas (base_device self).

Definition get_tags (self : state) : gmap string string :=
  Device.get_tags (base_device self).

End Wrapping.
Arguments state B : clear implicits.

#[global] Instance device {B} `{Device.Interface B}
  : Device.Interface (state B) :=
  {| Device.step := step; Device.get := get;
     Device.get_influx_meas := get_influx_meas;
     Device.get_tags := get_tags |}.

End StickyDevice.

(** An object together with its class: what a Python variable of type
    [Process] or [Device] holds. *)
Record process := Proc {
  process_class : Type;
  process_methods : Process.Interface process_class;
  process_self : process_class
}.
Arguments Proc {process_class process_methods} process_self.

Record device := Dev {
  device_class : Type;
  device_methods : Device.Interface device_class;
  device_self : device_class
}.
Arguments Dev {device_class device_methods} device_self.

Definition process_step (rd : readings) (p : process) : Rand (result process) :=
  let (P, M, self) := p in
  (draw r := Process.step rd self in
   ret match r with
       | Ok self' => Ok (Proc self')
       | Raise e => Raise e
       end)%rand.

Definition process_get (p : process) : Q :=
  let (P, M, self) := p in Process.get self.

Definition device_step (rd : readings) (d : device) : Rand device :=
  let (D, M, self) := d in
  (draw self' := Device.step rd self in ret (Dev self'))%rand.

Definition device_get (d : device) : option Q :=
  let (D, M, self) := d in Device.get self.

Definition device_get_influx_meas (d : device) : string :=
  let (D, M, self) := d in Device.get_influx_meas self.

Definition device_get_tags (d : device) : gmap string string :=
  let (D, M, self) := d in Device.get_tags self.

(** What the InfluxDB client receives: [Point(m).field("value", v)] with its
    tags, and the log of [write_api.write(bucket, record=p)] calls. *)
Record Point := {
  point_measurement : string;
  point_fields : list (string * Q);
  point_tags : gmap string string
}.

Definition write_log := list (string * Point).

(** What [generate_data] writes to its file, one entry per [file.write].
    A data row is kept as the five values that its f-string interpolates
    ([None] prints as the text None); the formatting of floats and dates is
    not modelled. *)
Inductive written :=
| Text (s : string)
| Row (m : string) (value : option Q) (time : Z) (room_id sensor_id : string).

(** [d[key]] on a dict. *)
Definition item (d : gmap string string) (key : string) : result string :=
  match d !! key with
  | Some v => Ok v
  | None => Raise KeyError
  end.

Module Environment.

(** [processes] and [devices] are Python sets; a set is iterated in one
    fixed order during a run, which is the order of the list.  A reference
    held by a process or a measurement is the position of the referenced
    process in [processes]. *)
Record state := {
  processes : list process;
  devices : list device
}.

Definition readings_of (ps : list process) : readings :=
  fun r => match ps !! r with
           | Some p => process_get p
           | None => 0%Q
           end.

(** [for process in self.processes: process.step()]: each object is
    replaced in place, so a later one reads the new values of the earlier
    ones. *)
Fixpoint step_processes (done rest : list process)
  : Rand (result (list process)) :=
  match rest with
  | [] => ret (Ok done)
  | p :: rest' =>
      (draw r := process_step (readings_of (done ++ rest)) p in
       match r with
       | Ok p' => step_processes (done ++ [p']) rest'
       | Raise e => ret (Raise e)
       end)%rand
  end.

(** [for device in self.devices: device.step()], the stepping that the
    loops of [run_influx], [run_console] and [generate_data] all do, without
    their output. *)
Fixpoint step_devices (rd : readings) (ds : list device)
  : Rand (list device) :=
  match ds with
  | [] => ret []
  | d :: ds =>
      (draw d' := device_step rd d in
       draw ds' := step_devices rd ds in
       ret (d' :: ds'))%rand
  end.

Definition write_device (d : device) (bucket : string) (api : write_log)
  : result write_log :=
  let value := device_get d in
  match value with
  | None => Ok api
  | Some value =>
      (try v := float value in
       let p := {| point_measurement := device_get_influx_meas d;
                   point_fields := [("value"%string, v)];
                   point_tags := device_get_tags d |} in
       Ok (api ++ [(bucket, p)]))%result
  end.

(** The inner loop of [run_influx]:
    [for device in self.devices: device.step(); self.write_device(...)]. *)
Fixpoint influx_devices (rd : readings) (bucket : string)
    (ds : list device) (api : write_log)
  : Rand (result (list device * write_log)) :=
  match ds with
  | [] => ret (Ok ([], api))
  | d :: ds =>
      (draw d' := device_step rd d in
       match write_device d' bucket api with
       | Raise e => ret (Raise e)
       | Ok api =>
           draw r := influx_devices rd bucket ds api in
           ret match r with
               | Raise e => Raise e
               | Ok (ds', api') => Ok (d' :: ds', api')
               end
       end)%rand
  end.

(** One turn of the [while True] loop of [run_influx]. *)
Definition influx_tick (bucket : string) (self : state) (api : write_log)
  : Rand (result (state * write_log)) :=
  (draw r := step_processes [] (processes self) in
   match r with
   | Raise e => ret (Raise e)
   | Ok ps =>
       draw r := influx_devices (readings_of ps) bucket (devices self) api in
       ret match r with
           | Raise e => Raise e
           | Ok (ds, api') => Ok ({| processes := ps; devices := ds |}, api')
           end
   end)%rand.

(** The first [n] turns of [run_influx]. *)
Fixpoint run_influx (n : nat) (bucket : string) (self : state)
    (api : write_log) : Rand (result (state * write_log)) :=
  match n with
  | O => ret (Ok (self, api))
  | S n =>
      (draw r := run_influx n bucket self api in
       match r with
       | Raise e => ret (Raise e)
       | Ok (self', api') => influx_tick bucket self' api'
       end)%rand
  end.

Definition row (d : device) (time : Z) : result written :=
  (let m := device_get_influx_meas d in
   let value := device_get d in
   try room_id := item (device_get_tags d) "room_id" in
   try sensor_id := item (device_get_tags d) "sensor_id" in
   Ok (Row m value time room_id sensor_id))%result.

(** The inner loop of [generate_data]:
    [for d in self.devices: d.step(); file.write(f"..."); d.get()]. *)
Fixpoint generate_devices (rd : readings) (time : Z)
    (ds : list device) (file : list written)
  : Rand (result (list device * list written)) :=
  match ds with
  | [] => ret (Ok ([], file))
  | d :: ds =>
      (draw d' := device_step rd d in
       match row d' time with
       | Raise e => ret (Raise e)
       | Ok line =>
           let file := file ++ [line] in
           let _ := device_get d' in
           draw r := generate_devices rd time ds file in
           ret match r with
               | Raise e => Raise e
               | Ok (ds', file') => Ok (d' :: ds', file')
               end
       end)%rand
  end.

(** [for _ in range(steps)] of [generate_data], with the clock. *)
Fixpoint generate_loop (steps : nat) (dt : Z) (time : Z) (self : state)
    (file : list written) : Rand (result (state * list written)) :=
  match steps with
  | O => ret (Ok (self, file))
  | S steps =>
      (draw r := step_processes [] (processes self) in
       match r with
       | Raise e => ret (Raise e)
       | Ok ps =>
           draw r := generate_devices (readings_of ps) time
                       (devices self) file in
           match r with
           | Raise e => ret (Raise e)
           | Ok (ds, file') =>
               generate_loop steps dt (time + dt)
                 {| processes := ps; devices := ds |} file'
           end
       end)%rand
  end.

(** [generate_data(steps, dt, filename)] started at clock time [now];
    the result carries the contents of the file. *)
Definition generate_data (now : Z) (steps dt : Z) (self : state)
  : Rand (result (state * list written)) :=
  let time := now in
  let file :=
    [Text "#datatype measurement,double,dateTime,tag,tag";
     Text "m,value,time,room_id,sensor_id"] in
  generate_loop (Z.to_nat steps) dt time self file.

End Environment.

Definition perfect_device (rd : readings) (name : string) (p : ref)
    (influx_meas : string) (tags : gmap string string)
  : Rand BasicDevice.state :=
  BasicDevice.init rd name
    {| Measurement.process := p; Measurement.distortion := identity |}
    0%Q influx_meas tags.

(** [l[i]] for any int: a negative index counts from the end. *)
Definition getitem {A} (l : list A) (i : Z) : result A :=
  if 0 <=? i then index l (Z.to_nat i)
  else if - Z.of_nat (length l) <=? i
       then index l (Z.to_nat (Z.of_nat (length l) + i))
       else Raise IndexError.

Module ReplayedProcess.

Record state := {
  samples : list Q;
  t : Z
}.

Definition init (samples : list Q) : state :=
  {| samples := samples; t := 0 |}.

Definition step (self : state) : state :=
  let self := {| samples := samples self; t := t self + 1 |} in
  if t self >? Z.of_nat (length (samples self)) - 1
  then {| samples := samples self; t := 0 |}
  else self.

Definition get (self : state) : result Q :=
  getitem (samples self) (t self).

End ReplayedProcess.

(** [run_console] reads the instance attributes [device.name] and
    [device.tags] instead of calling the methods of [Device].  An object has
    the attributes that its [__init__] assigns ([None] below: the class
    assigns no such attribute); reading another one raises
    [AttributeError]. *)
Module Console.

Inductive error :=
| Exception (e : exn)
| AttributeError (attribute : string).

Inductive outcome (A : Type) :=
| Done (a : A)
| Failed (e : error).
Arguments Done {A} a.
Arguments Failed {A} e.

Class Attributes (D : Type) := {
  name : D -> option string;
  tags : D -> option (gmap string string)
}.

#[global] Instance basic_attributes : Attributes BasicDevice.state :=
  {| name := fun self => Some (BasicDevice.name self);
     tags := fun self => Some (BasicDevice.tags self) |}.

#[global] Instance doomed_attributes {B} `{Device.Interface B}
  : Attributes (DoomedDevice.state B) :=
  {| name := fun self => Some (DoomedDevice.name self);
     tags := fun _ => None |}.

#[global] Instance sticky_attributes {B} `{Device.Interface B}
  : Attributes (StickyDevice.state B) :=
  {| name := fun self => Some (StickyDevice.name self);
     tags := fun _ => None |}.

(** A device object with its class and its attributes. *)
Record object := Obj {
  object_class : Type;
  object_methods : Device.Interface object_class;
  object_attributes : Attributes object_class;
  object_self : object_class
}.
Arguments Obj {object_class object_methods object_attributes} object_self.

Definition object_step (rd : readings) (d : object) : Rand object :=
  let (D, M, A, self) := d in
  (draw self' := Device.step rd self in ret (Obj self'))%rand.

Definition getattr {A} (attribute : string) (a : option A) : outcome A :=
  match a with
  | Some v => Done v
  | None => Failed (AttributeError attribute)
  end.

(** What one [print(time, device.name, "value:", device.get(), "tags:",
    device.tags)] shows; the arguments are evaluated from left to right. *)
Record printed := {
  printed_time : Z;
  printed_name : string;
  printed_value : option Q;
  printed_tags : gmap string string
}.

Definition print_device (time : Z) (d : object) : outcome printed :=
  let (D, M, A, self) := d in
  match getattr "name" (name self) with
  | Failed e => Failed e
  | Done nm =>
      let value := Device.get self in
      match getattr "tags" (tags self) with
      | Failed e => Failed e
      | Done tgs =>
          Done {| printed_time := time; printed_name := nm;
                  printed_value := value; printed_tags := tgs |}
      end
  end.

(** The environment as [run_console] sees it. *)
Record state := {
  processes : list process;
  devices : list object
}.

(** [for device in self.devices: device.step(); print(...)]. *)
Fixpoint console_devices (rd : readings) (time : Z) (ds : list object)
    (out : list printed) : Rand (outcome (list object * list printed)) :=
  match ds with
  | [] => ret (Done ([], out))
  | d :: ds =>
      (draw d' := object_step rd d in
       match print_device time d' with
       | Failed e => ret (Failed e)
       | Done line =>
           draw r := console_devices rd time ds (out ++ [line]) in
           ret match r with
               | Failed e => Failed e
               | Done (ds', out') => Done (d' :: ds', out')
               end
       end)%rand
  end.

(** One turn of the [while True] loop of [run_console], entered at clock
    time [time]. *)
Definition console_tick (time : Z) (self : state) (out : list printed)
  : Rand (outcome (state * list printed)) :=
  (draw r := Environment.step_processes [] (processes self) in
   match r with
   | Raise e => ret (Failed (Exception e))
   | Ok ps =>
       draw r := console_devices (Environment.readings_of ps) time
                   (devices self) out in
       ret match r with
           | Failed e => Failed e
           | Done (ds, out') =>
               Done ({| processes := ps; devices := ds |}, out')
           end
   end)%rand.

End Console.

(** ** numpy's check of the rate

    [numpy.random.poisson(lam)] converts [lam] to a C double and raises
    before it draws when the double is negative or above numpy's
    [POISSON_LAM_MAX] ([ValueError]), or when [lam] is a Python int beyond
    the range of a double.  The bound is
    [np.iinfo('l').max - np.sqrt(np.iinfo('l').max)*10], computed in
    doubles, for a 64-bit [long]. *)
Inductive numpy_result (A : Type) :=
| Returned (a : A)
| Raised.
Arguments Returned {A} a.
Arguments Raised {A}.

Definition POISSON_LAM_MAX : Q := inject_Z 9223372006484770816.

Definition poisson_checked (lam : Q) : Rand (numpy_result N) :=
  match float lam with
  | Raise _ => ret Raised
  | Ok f =>
      if Qltb f 0 || Qltb POISSON_LAM_MAX f then ret Raised
      else (draw n := poisson lam in ret (Returned n))%rand
  end.

(** [BirthDeathProcess.step] with the calls of [poisson] that may raise.
    Both calls come before the first assignment to [self.value], so a call
    of [step()] that raises leaves the object as it was; when the second
    call of [poisson] raises, the first one has drawn. *)
Definition BirthDeathProcess_step_checked (rd : readings)
    (self : BirthDeathProcess.state)
  : Rand (numpy_result BirthDeathProcess.state) :=
  (let _lambda := rd (BirthDeathProcess.birth_rate self) in
   draw n_birth := poisson_checked _lambda in
   match n_birth with
   | Raised => ret Raised
   | Returned n_birth =>
       let _mu := rd (BirthDeathProcess.death_rate self) in
       draw n_death := poisson_checked _mu in
       match n_death with
       | Raised => ret Raised
       | Returned n_death =>
           let self :=
             BirthDeathProcess.set_value self
               (BirthDeathProcess.value self + Z.of_N n_birth) in
           let self :=
             if BirthDeathProcess.limit self >? 0
             then BirthDeathProcess.set_value self
                    (Z.min (BirthDeathProcess.limit self)
                       (BirthDeathProcess.value self))
             else self in
           ret (Returned
                  (BirthDeathProcess.set_value self
                     (Z.max 0 (BirthDeathProcess.value self
                               - Z.of_N n_death))))
       end
   end)%rand.

(** The object after [n] calls of [step()], each in a [try], and how many of
    the calls returned; a call that raised has changed nothing in the
    object. *)
Fixpoint BirthDeathProcess_run_checked (sched : nat -> readings) (n : nat)
    (self : BirthDeathProcess.state)
  : Rand (BirthDeathProcess.state * nat) :=
  match n with
  | O => ret (self, 0%nat)
  | S n =>
      (draw before := BirthDeathProcess_run_checked sched n self in
       draw r := BirthDeathProcess_step_checked (sched n) (fst before) in
       ret match r with
           | Returned self' => (self', S (snd before))
           | Raised => before
           end)%rand
  end.


(** * Notions used in the statements *)

(** [if self.time_remaining > 0: self.time_remaining -= 1], the counter
    logic that [DoomedDevice.step] and [StickyDevice.step] share. *)
Definition tick_down (tr : Z) : Z := if tr >? 0 then tr - 1 else tr.

(** A [PwConstantProcess] with its clock at [k], in the same phase. *)
Definition PwConstant_hold (self : PwConstantProcess.state) (k : Z)
  : PwConstantProcess.state :=
  {| PwConstantProcess.phase_lengths := PwConstantProcess.phase_lengths self;
     PwConstantProcess.values := PwConstantProcess.values self;
     PwConstantProcess.seasonal := PwConstantProcess.seasonal self;
     PwConstantProcess.t := k;
     PwConstantProcess.phase := PwConstantProcess.phase self;
     PwConstantProcess.value := PwConstantProcess.value self |}.

(** The phase that [step()] moves to when it leaves the current one. *)
Definition PwConstant_next_phase (self : PwConstantProcess.state) : nat :=
  if PwConstantProcess.seasonal self
     && (Z.of_nat (S (PwConstantProcess.phase self))
         >? Z.of_nat (length (PwConstantProcess.values self)) - 1)
  then 0%nat else S (PwConstantProcess.phase self).

(** The object at the start of phase [p]; [values[p]] may raise. *)
Definition PwConstant_enter (self : PwConstantProcess.state) (p : nat)
  : result PwConstantProcess.state :=
  (try v := index (PwConstantProcess.values self) p in
   Ok {| PwConstantProcess.phase_lengths :=
           PwConstantProcess.phase_lengths self;
         PwConstantProcess.values := PwConstantProcess.values self;
         PwConstantProcess.seasonal := PwConstantProcess.seasonal self;
         PwConstantProcess.t := 0;
         PwConstantProcess.phase := p;
         PwConstantProcess.value := v |})%result.

(** The number of [step()] calls that the code spends on a list of phases:
    one more than its length for each. *)
Definition PwConstant_ticks (lens : list Z) : nat :=
  sum_list (map (fun len => S (Z.to_nat len)) lens).

(** The readings at ticks [0 .. n-1]: [get()] after 0, 1, ... calls of
    [step()]. *)
Definition PwConstant_trace (n : nat) (self : PwConstantProcess.state)
  : list (result Q) :=
  map (fun k => result_bind (PwConstantProcess.steps k self)
                  (fun s => Ok (PwConstantProcess.get s)))
      (seq 0 n).

(** What [write_device] sends for a device: nothing when its reading is
    absent, else one point with the reading converted by [float()]. *)
Definition point_of (bucket : string) (d : device)
  : result (list (string * Point)) :=
  match device_get d with
  | None => Ok []
  | Some value =>
      (try v := float value in
       Ok [(bucket,
            {| point_measurement := device_get_influx_meas d;
               point_fields := [("value"%string, v)];
               point_tags := device_get_tags d |})])%result
  end.

(** ** Example objects *)

(** A random source whose uniform draws are all 1/2 and whose Poisson draws
    are all 1. *)
Definition rng_half : Rng :=
  {| uniform_tape := fun _ => (1 # 2)%Q;
     poisson_tape := fun _ => 1%N;
     drawn := 0%nat |}.

(** Readings 2, 3, 4, ... of every process during step 0, 1, 2, ... *)
Definition counting : nat -> readings :=
  fun k _ => inject_Z (Z.of_nat k + 2).

(** [PwConstantProcess([3, 2], [10, 20], seasonal)] just constructed. *)
Definition pw_3_2 (seasonal : bool) : PwConstantProcess.state :=
  {| PwConstantProcess.phase_lengths := [3; 2];
     PwConstantProcess.values := [10%Q; 20%Q];
     PwConstantProcess.seasonal := seasonal;
     PwConstantProcess.t := 0;
     PwConstantProcess.phase := 0%nat;
     PwConstantProcess.value := 10%Q |}.

(** The same object when it has just entered its second (and last) phase. *)
Definition pw_3_2_last (seasonal : bool) : PwConstantProcess.state :=
  {| PwConstantProcess.phase_lengths := [3; 2];
     PwConstantProcess.values := [10%Q; 20%Q];
     PwConstantProcess.seasonal := seasonal;
     PwConstantProcess.t := 0;
     PwConstantProcess.phase := 1%nat;
     PwConstantProcess.value := 20%Q |}.

Definition room_tags : gmap string string :=
  <["room_id" := "1"]> (<["sensor_id" := "2"]> ∅).

(** [BasicDevice("temp", Measurement(p0, identity), p_skip, "temperature",
    {"room_id": "1", "sensor_id": "2"})], constructed while process 0 read
    [v]. *)
Definition thermometer (p_skip v : Q) : BasicDevice.state :=
  fst (BasicDevice.init (fun _ => v) "temp"
         {| Measurement.process := 0%nat; Measurement.distortion := identity |}
         p_skip "temperature" room_tags rng_half).

(** An environment with one constant process and one thermometer on it. *)
Definition one_room (p_skip : Q) : Environment.state :=
  {| Environment.processes := [Proc (ConstantProcess.init 21%Q)];
     Environment.devices := [Dev (thermometer p_skip 21%Q)] |}.

(** Probability readings: every process reads [p] at every tick. *)
Definition always (p : Q) : nat -> readings := fun _ _ => p.


(** The time stamp of a data row of the generated file. *)
Definition row_time (w : written) : option Z :=
  match w with
  | Row _ _ time _ _ => Some time
  | Text _ => None
  end.

(** The time stamps that [generate_data] writes: [k] rows for each of
    [steps] steps, the clock moving on by [dt] after each step. *)
Fixpoint stamps (steps : nat) (dt time : Z) (k : nat) : list Z :=
  match steps with
  | O => []
  | S steps => replicate k time ++ stamps steps dt (time + dt) k
  end.

(** The point that a [BasicDevice] logs for the field value [v]. *)
Definition basic_point (bucket : string) (b : BasicDevice.state) (v : Q)
  : string * Point :=
  (bucket,
   {| point_measurement := BasicDevice.influx_meas b;
      point_fields := [("value"%string, v)];
      point_tags := BasicDevice.tags b |}).

(** [p_skip <= 0] and the identity as distortion. *)
Definition perfect (b : BasicDevice.state) : Prop :=
  (BasicDevice.p_skip b <= 0)%Q /\
  Measurement.distortion (BasicDevice.measurement b) = identity.


(** An environment whose only device is a [BasicDevice] without the
    [sensor_id] tag. *)
Definition untagged_room : Environment.state :=
  {| Environment.processes := [Proc (ConstantProcess.init 21%Q)];
     Environment.devices :=
       [Dev {| BasicDevice.name := "temp";
               BasicDevice.measurement :=
                 {| Measurement.process := 0%nat;
                    Measurement.distortion := identity |};
               BasicDevice.p_skip := 0%Q;
               BasicDevice.value := Some 21%Q;
               BasicDevice.tags := <["room_id" := "1"]> ∅;
               BasicDevice.influx_meas := "temperature" |}] |}.

(** An environment whose only process changes its value at every step
    (10, 20, 10, ...), read by a thermometer constructed while it read 10. *)
Definition flipping_room : Environment.state :=
  {| Environment.processes :=
       [Proc {| PwConstantProcess.phase_lengths := [0; 0];
                PwConstantProcess.values := [10%Q; 20%Q];
                PwConstantProcess.seasonal := true;
                PwConstantProcess.t := 0;
                PwConstantProcess.phase := 0%nat;
                PwConstantProcess.value := 10%Q |}];
     Environment.devices := [Dev (thermometer 0%Q 10%Q)] |}.

(** An environment with a non-seasonal schedule among its processes. *)
Definition crashing_room : Environment.state :=
  {| Environment.processes :=
       [Proc (ConstantProcess.init 21%Q); Proc (pw_3_2 false)];
     Environment.devices := [Dev (thermometer 0%Q 21%Q)] |}.


(** [for device in devices: device.step()] on [BasicDevice]s. *)
Fixpoint step_basics (rd : readings) (bs : list BasicDevice.state)
  : Rand (list BasicDevice.state) :=
  match bs with
  | [] => ret []
  | b :: bs =>
      (draw b' := BasicDevice.step rd b in
       draw bs' := step_basics rd bs in
       ret (b' :: bs'))%rand
  end.

(** The line that [run_console] prints for a [BasicDevice]. *)
Definition basic_line (time : Z) (b : BasicDevice.state) : Console.printed :=
  {| Console.printed_time := time;
     Console.printed_name := BasicDevice.name b;
     Console.printed_value := BasicDevice.value b;
     Console.printed_tags := BasicDevice.tags b |}.

(** The process of [flipping_room] in its second phase. *)
Definition pw_flip_second : PwConstantProcess.state :=
  {| PwConstantProcess.phase_lengths := [0; 0];
     PwConstantProcess.values := [10%Q; 20%Q];
     PwConstantProcess.seasonal := true;
     PwConstantProcess.t := 0;
     PwConstantProcess.phase := 1%nat;
     PwConstantProcess.value := 20%Q |}.

(** [flipping_room] for the console, with a thermometer that follows the
    process and one that always skips. *)
Definition console_room : Console.state :=
  {| Console.processes := Environment.processes flipping_room;
     Console.devices :=
       [Console.Obj (thermometer 0%Q 10%Q);
        Console.Obj (thermometer 1%Q 10%Q)] |}.

(** The environment of [one_room] with its thermometer wrapped in a
    [DoomedDevice], as [lab_env.py] does under [--kill_after]. *)
Definition doomed_room : Console.state :=
  {| Console.processes := [Proc (ConstantProcess.init 21%Q)];
     Console.devices :=
       [Console.Obj (thermometer 0%Q 21%Q);
        Console.Obj (DoomedDevice.init "temp1" (thermometer 0%Q 21%Q) 5)] |}.


(** * Properties *)

Lemma rng_half_fair : fair rng_half.
Proof. intros i. simpl. split; reflexivity || discriminate. Qed.

(** ** BirthDeathProcess *)

Section BirthDeathProcess_facts.
Import BirthDeathProcess.

Lemma BirthDeathProcess_step_limit rd self g :
  limit (fst (step rd self g)) = limit self.
Proof.
  unfold step, bind, poisson, ret; simpl.
  destruct (limit self >? 0); reflexivity.
Qed.

(** One call of [step()] establishes the bounds, whatever the value was. *)
Lemma BirthDeathProcess_step_bounds rd self g :
  0 < limit self ->
  0 <= value (fst (step rd self g)) <= limit self.
Proof.
  intros HL. unfold step, bind, poisson, ret; simpl.
  destruct (limit self >? 0) eqn:E; simpl.
  - lia.
  - rewrite Z.gtb_ltb, Z.ltb_ge in E. lia.
Qed.

Lemma BirthDeathProcess_run_limit sched n self g :
  limit (fst (run step sched n self g)) = limit self.
Proof.
  induction n as [|n IH]; simpl; [reflexivity|].
  unfold bind. destruct (run step sched n self g) as [s' g'].
  simpl in IH. rewrite BirthDeathProcess_step_limit. exact IH.
Qed.

(** C1, as amended: with [limit = L > 0], [get()] lies in [0, L] after
    every sequence of at least one [step()] call, and after every
    sequence, the empty one too, when the process was constructed with
    [0 <= init <= L]. *)
Theorem BirthDeathProcess_bounded sched n self g :
  0 < limit self ->
  (1 <= n)%nat \/ 0 <= value self <= limit self ->
  0 <= get (fst (run step sched n self g)) <= limit self.
Proof.
  intros HL Hn. unfold get. destruct n as [|n].
  - destruct Hn as [Hn|Hn]; [lia|]. simpl. exact Hn.
  - simpl. unfold bind.
    pose proof (BirthDeathProcess_run_limit sched n self g) as Hl.
    destruct (run step sched n self g) as [s' g']. simpl in Hl.
    rewrite <- Hl. apply BirthDeathProcess_step_bounds. lia.
Qed.

End BirthDeathProcess_facts.

Lemma BirthDeathProcess_bounded_witness :
  0 <= BirthDeathProcess.get
         (fst (run BirthDeathProcess.step counting 3
                 (BirthDeathProcess.init 0%nat 1%nat 7 5) rng_half)) <= 5.
Proof.
  apply (BirthDeathProcess_bounded counting 3
           (BirthDeathProcess.init 0%nat 1%nat 7 5) rng_half).
  - simpl. lia.
  - left. lia.
Defined.

(** C1 as stated fails before the first step: the constructor stores [init]
    as it is, so [BirthDeathProcess(b, d, init=7, limit=5).get()] is 7. *)
Lemma BirthDeathProcess_unbounded_before_first_step :
  let self := BirthDeathProcess.init 0%nat 1%nat 7 5 in
  0 < BirthDeathProcess.limit self /\
  ~ (0 <= BirthDeathProcess.get
            (fst (run BirthDeathProcess.step counting 0 self rng_half))
       <= BirthDeathProcess.limit self).
Proof. simpl. split; lia. Qed.

(** ** OnOffProcess *)

Section OnOffProcess_facts.
Import OnOffProcess.

Lemma OnOffProcess_step_binary rd self g :
  value self = 0 \/ value self = 1 ->
  value (fst (step rd self g)) = 0 \/ value (fst (step rd self g)) = 1.
Proof.
  intros Hv. unfold step, bind, random, ret.
  destruct (value self =? 0);
    match goal with |- context [Qltb ?u ?p] => destruct (Qltb u p) end;
    simpl; auto.
Qed.

(** C10: a new [OnOffProcess] is off (0), and after any sequence of
    [step()] calls, for every outcome of the draws and every value of the
    two probability processes, [get()] is 0 or 1. *)
Theorem OnOffProcess_binary on_to_off off_to_on sched n g :
  get (init on_to_off off_to_on) = 0 /\
  (get (fst (run step sched n (init on_to_off off_to_on) g)) = 0 \/
   get (fst (run step sched n (init on_to_off off_to_on) g)) = 1).
Proof.
  split; [reflexivity|]. unfold get.
  induction n as [|n IH]; simpl; [auto|].
  unfold bind.
  destruct (run step sched n (init on_to_off off_to_on) g) as [s' g'].
  apply OnOffProcess_step_binary. exact IH.
Qed.

End OnOffProcess_facts.

(** ** PwConstantProcess *)

Section PwConstantProcess_facts.
Import PwConstantProcess.

Lemma PwConstantProcess_step_hold self len :
  phase_lengths self !! phase self = Some len ->
  t self + 1 <= len ->
  step self = Ok (PwConstant_hold self (t self + 1)).
Proof.
  intros Hlen Ht. unfold step, index. rewrite Hlen. simpl.
  destruct (Z.gtb_spec (t self + 1) len); [lia|reflexivity].
Qed.

Lemma PwConstantProcess_step_advance self len :
  phase_lengths self !! phase self = Some len ->
  len < t self + 1 ->
  step self = PwConstant_enter self (PwConstant_next_phase self).
Proof.
  intros Hlen Ht. unfold step, index at 1. rewrite Hlen. simpl.
  destruct (Z.gtb_spec (t self + 1) len); [reflexivity|lia].
Qed.

Lemma PwConstantProcess_steps_hold self len k :
  phase_lengths self !! phase self = Some len ->
  t self = 0 ->
  (k <= Z.to_nat len)%nat ->
  steps k self = Ok (PwConstant_hold self (Z.of_nat k)).
Proof.
  intros Hlen Ht. induction k as [|k IH]; intros Hk.
  - simpl. destruct self; simpl in *; subst; reflexivity.
  - simpl. rewrite IH by lia. simpl.
    rewrite (PwConstantProcess_step_hold _ len); simpl; [|exact Hlen|lia].
    unfold PwConstant_hold; simpl. do 2 f_equal. lia.
Qed.

Lemma PwConstantProcess_steps_leave self len :
  phase_lengths self !! phase self = Some len ->
  t self = 0 ->
  0 <= len ->
  steps (S (Z.to_nat len)) self
  = PwConstant_enter self (PwConstant_next_phase self).
Proof.
  intros Hlen Ht Hpos. simpl.
  rewrite (PwConstantProcess_steps_hold self len) by (assumption || lia).
  simpl. rewrite (PwConstantProcess_step_advance _ len); simpl;
    [reflexivity|exact Hlen|lia].
Qed.


Lemma PwConstantProcess_steps_add a b self :
  steps (a + b) self = result_bind (steps a self) (steps b).
Proof.
  induction b as [|b IH].
  - rewrite Nat.add_0_r. simpl. destruct (steps a self); reflexivity.
  - rewrite Nat.add_succ_r. simpl. rewrite IH.
    destruct (steps a self); reflexivity.
Qed.

Lemma PwConstantProcess_enter_same s1 s2 p :
  phase_lengths s1 = phase_lengths s2 ->
  values s1 = values s2 ->
  seasonal s1 = seasonal s2 ->
  PwConstant_enter s1 p = PwConstant_enter s2 p.
Proof.
  intros Hl Hv Hs. unfold PwConstant_enter. rewrite Hl, Hv, Hs. reflexivity.
Qed.

(** From the start of phase [p], a seasonal process with as many lengths
    as values, none negative, is back at the start of phase 0 after the
    ticks of the phases [p], [p + 1], ... *)
Lemma PwConstantProcess_rest_of_cycle self k p s :
  seasonal self = true ->
  length (phase_lengths self) = length (values self) ->
  Forall (fun len => 0 <= len) (phase_lengths self) ->
  (length (phase_lengths self) - p <= k)%nat ->
  PwConstant_enter self p = Ok s ->
  steps (PwConstant_ticks (drop p (phase_lengths self))) s
  = PwConstant_enter self 0.
Proof.
  intros Hs Hlen Hpos. revert p s. induction k as [|k IH]; intros p s Hk Hp.
  - unfold PwConstant_enter, index in Hp.
    rewrite lookup_ge_None_2 in Hp by lia. discriminate Hp.
  - unfold PwConstant_enter, index in Hp.
    destruct (values self !! p) as [v|] eqn:Hv; [|discriminate Hp].
    cbn [result_bind] in Hp. injection Hp as <-.
    assert (Hlt : (p < length (phase_lengths self))%nat).
    { rewrite Hlen. apply lookup_lt_Some in Hv. exact Hv. }
    destruct (lookup_lt_is_Some_2 _ _ Hlt) as [len Hl].
    assert (0 <= len) as Hlen0.
    { rewrite Forall_forall in Hpos. apply Hpos.
      apply list_elem_of_lookup. eauto. }
    rewrite (drop_S _ _ _ Hl). unfold PwConstant_ticks. cbn [map sum_list].
    fold (PwConstant_ticks (drop (S p) (phase_lengths self))).
    rewrite PwConstantProcess_steps_add.
    rewrite (PwConstantProcess_steps_leave _ len) by (assumption || reflexivity).
    match goal with |- context [PwConstant_next_phase ?s0] =>
      rewrite (PwConstantProcess_enter_same s0 self) by reflexivity;
      unfold PwConstant_next_phase; cbn [seasonal phase values]
    end.
    rewrite Hs. cbn [andb].
    destruct (Z.gtb_spec (Z.of_nat (S p)) (Z.of_nat (length (values self)) - 1))
      as [Hlast|Hmore].
    + replace (drop (S p) (phase_lengths self)) with (@nil Z)
        by (symmetry; apply drop_ge; lia).
      destruct (PwConstant_enter self 0); reflexivity.
    + destruct (PwConstant_enter self (S p)) as [s'|e] eqn:Hnext.
      * cbn [result_bind]. apply IH; [lia|exact Hnext].
      * unfold PwConstant_enter, index in Hnext.
        destruct (lookup_lt_is_Some_2 (values self) (S p) ltac:(lia))
          as [v' Hv'].
        rewrite Hv' in Hnext. discriminate Hnext.
Qed.

(** A seasonal process constructed with as many lengths as values, none
    negative, is the constructed object again after one more call of
    [step()] per phase than the lengths add up to. *)
Lemma PwConstantProcess_cycle lens vals self :
  init lens vals true = Ok self ->
  length lens = length vals ->
  Forall (fun len => 0 <= len) lens ->
  steps (PwConstant_ticks lens) self = Ok self.
Proof.
  intros Hinit Hlen Hpos. unfold init, index in Hinit.
  destruct (vals !! 0%nat) as [v|] eqn:Hv; [|discriminate Hinit].
  cbn [result_bind] in Hinit. injection Hinit as <-.
  match goal with |- steps _ ?s = _ => set (self := s) end.
  assert (Henter : PwConstant_enter self 0 = Ok self).
  { unfold PwConstant_enter, index. subst self.
    cbn [values]. rewrite Hv. reflexivity. }
  rewrite <- Henter at 1.
  apply (PwConstantProcess_rest_of_cycle self (length lens) 0%nat self);
    try assumption; try reflexivity. subst self. simpl. lia.
Qed.

(** The arrival schedule of lecture room A in [lab_env.py], whose lengths
    add up to the 144 ticks of a day, takes 148 ticks to come round. *)
Example PwConstantProcess_ticks_lab_env :
  PwConstant_ticks [6; 24; 24; 90] = 148%nat /\ 6 + 24 + 24 + 90 = 144.
Proof. split; reflexivity. Qed.

Lemma PwConstantProcess_period_3_2 n :
  steps (n + 7) (pw_3_2 true) = steps n (pw_3_2 true).
Proof.
  induction n as [|n IH]; [reflexivity|].
  simpl. rewrite IH. reflexivity.
Qed.

(** C3: [PwConstantProcess([3,2], [10,20], seasonal=True)] is constructed
    without error; [get()] is 10 at ticks 0 to 3, 20 at ticks 4 to 6 and 10
    again at tick 7; the object after [n + 7] steps is the object after [n]
    steps, for every [n], so the readings repeat with period 7 for ever
    (listed here over the first fifteen ticks, two full cycles). *)
Theorem PwConstantProcess_3_2_periodic :
  init [3; 2] [10%Q; 20%Q] true = Ok (pw_3_2 true) /\
  PwConstant_trace 15 (pw_3_2 true)
    = map Ok [10; 10; 10; 10; 20; 20; 20;
              10; 10; 10; 10; 20; 20; 20; 10]%Q /\
  (forall n, steps (n + 7) (pw_3_2 true) = steps n (pw_3_2 true)) /\
  (forall n, exists s, steps n (pw_3_2 true) = Ok s /\
     get s = if (n mod 7 <? 4)%nat then 10%Q else 20%Q).
Proof.
  split; [reflexivity|]. split; [reflexivity|].
  split; [exact PwConstantProcess_period_3_2|].
  intros n. pose proof (Nat.div_mod_eq n 7) as E.
  assert (Hr : (n mod 7 < 7)%nat) by (apply Nat.mod_upper_bound; lia).
  remember (n mod 7)%nat as r eqn:Er. remember (n / 7)%nat as q eqn:Eq.
  clear Er Eq. subst n. induction q as [|q IH].
  - replace (7 * 0 + r)%nat with r by lia.
    do 7 (destruct r as [|r]; [eexists; split; reflexivity|]). lia.
  - replace (7 * S q + r)%nat with ((7 * q + r) + 7)%nat by lia.
    rewrite PwConstantProcess_period_3_2. exact IH.
Qed.

(** A non-seasonal process that has entered its last phase, of length
    [len >= 0], raises [IndexError] in call number [len + 1] of [step()],
    and no later call returns. *)
Lemma PwConstantProcess_last_phase_raises self len n :
  seasonal self = false ->
  phase_lengths self !! phase self = Some len ->
  length (values self) = S (phase self) ->
  t self = 0 ->
  0 <= len ->
  (Z.to_nat len < n)%nat ->
  steps n self = Raise IndexError.
Proof.
  intros Hs Hlen Hlast Ht Hpos Hn.
  assert (Hfirst : steps (S (Z.to_nat len)) self = Raise IndexError).
  { rewrite (PwConstantProcess_steps_leave self len) by assumption.
    unfold PwConstant_enter, PwConstant_next_phase, index; simpl.
    rewrite Hs. simpl.
    rewrite lookup_ge_None_2 by (simpl; lia). reflexivity. }
  induction n as [|n IH]; [lia|].
  destruct (Nat.eq_dec n (Z.to_nat len)) as [->|Hne]; [exact Hfirst|].
  simpl. rewrite IH by lia. reflexivity.
Qed.

Lemma PwConstantProcess_steps_S n self :
  steps (S n) self = result_bind (step self) (steps n).
Proof.
  induction n as [|n IH].
  - simpl. destruct (step self); reflexivity.
  - change (steps (S (S n)) self) with (result_bind (steps (S n) self) step).
    rewrite IH. destruct (step self); reflexivity.
Qed.

Lemma PwConstantProcess_raised_for_good n m self :
  steps n self = Raise IndexError -> (n <= m)%nat ->
  steps m self = Raise IndexError.
Proof.
  intros Hn Hm. induction m as [|m IH].
  - assert (n = 0%nat) as -> by lia. exact Hn.
  - destruct (Nat.eq_dec n (S m)) as [->|Hne]; [exact Hn|].
    simpl. rewrite IH by lia. reflexivity.
Qed.

(** Without the seasonal wrap, the clock and the phase only move forward,
    and the phase leaves both lists after finitely many calls. *)
Lemma PwConstantProcess_non_seasonal_exhausts k j self :
  seasonal self = false ->
  (length (phase_lengths self) - phase self <= k)%nat ->
  (forall len, phase_lengths self !! phase self = Some len ->
               len - t self <= Z.of_nat j) ->
  exists n, steps n self = Raise IndexError.
Proof.
  revert j self. induction k as [|k IHk].
  - intros j self Hs Hk _. exists 1%nat. simpl. unfold step, index.
    rewrite lookup_ge_None_2 by lia. reflexivity.
  - induction j as [|j IHj]; intros self Hs Hk Hj.
    + destruct (phase_lengths self !! phase self) as [len|] eqn:Hlen.
      * specialize (Hj len eq_refl).
        pose proof (PwConstantProcess_step_advance self len Hlen
                      ltac:(lia)) as Hstep.
        unfold PwConstant_enter, PwConstant_next_phase in Hstep.
        rewrite Hs in Hstep. cbn [andb] in Hstep.
        destruct (index (values self) (S (phase self))) as [v|e] eqn:Hv.
        -- cbn [result_bind] in Hstep.
           match type of Hstep with _ = Ok ?s' =>
             destruct (IHk (Z.to_nat (Z.max 0
                              (match phase_lengths s' !! phase s' with
                               | Some l => l | None => 0 end))) s')
               as [n Hn] end.
           ++ reflexivity.
           ++ cbn [phase_lengths phase]. lia.
           ++ intros l Hl. rewrite Hl. cbn [t]. lia.
           ++ exists (S n). rewrite PwConstantProcess_steps_S, Hstep.
              exact Hn.
        -- exists 1%nat. simpl. rewrite Hstep. unfold index in Hv.
           destruct (values self !! S (phase self)); [discriminate Hv|].
           injection Hv as <-. reflexivity.
      * exists 1%nat. simpl. unfold step, index. rewrite Hlen. reflexivity.
    + destruct (phase_lengths self !! phase self) as [len|] eqn:Hlen.
      * specialize (Hj len eq_refl).
        destruct (Z_le_gt_dec (t self + 1) len) as [Hle|Hgt].
        -- pose proof (PwConstantProcess_step_hold self len Hlen Hle)
             as Hstep.
           destruct (IHj (PwConstant_hold self (t self + 1))) as [n Hn].
           ++ exact Hs.
           ++ exact Hk.
           ++ intros l Hl. simpl in Hl. rewrite Hlen in Hl.
              injection Hl as <-. simpl. lia.
           ++ exists (S n). rewrite PwConstantProcess_steps_S, Hstep.
              exact Hn.
        -- apply (IHj self Hs Hk). intros l Hl. rewrite Hlen in Hl.
           injection Hl as <-. lia.
      * exists 1%nat. simpl. unfold step, index. rewrite Hlen. reflexivity.
Qed.

(** C4 on the code: every non-seasonal [PwConstantProcess], whatever its
    lists and its state, raises [IndexError] after finitely many calls of
    [step()], and no later call returns; the last value is not held. *)
Theorem PwConstantProcess_non_seasonal_raises self :
  seasonal self = false ->
  exists n, forall m, (n <= m)%nat -> steps m self = Raise IndexError.
Proof.
  intros Hs.
  destruct (PwConstantProcess_non_seasonal_exhausts
              (length (phase_lengths self) - phase self)
              (Z.to_nat (match phase_lengths self !! phase self with
                         | Some l => l - t self
                         | None => 0
                         end))
              self Hs) as [n Hn].
  - lia.
  - intros len Hlen. rewrite Hlen. lia.
  - exists n. intros m Hm.
    exact (PwConstantProcess_raised_for_good n m self Hn Hm).
Qed.

(** The failing run from the constructor: six calls of [step()] succeed,
    the seventh raises. *)
Example PwConstantProcess_non_seasonal_run :
  init [3; 2] [10%Q; 20%Q] false = Ok (pw_3_2 false) /\
  steps 4 (pw_3_2 false) = Ok (pw_3_2_last false) /\
  steps 6 (pw_3_2 false) = Ok (PwConstant_hold (pw_3_2_last false) 2) /\
  steps 7 (pw_3_2 false) = Raise IndexError.
Proof. repeat split. Qed.

End PwConstantProcess_facts.


Lemma PwConstantProcess_non_seasonal_raises_witness :
  exists n, forall m, (n <= m)%nat ->
    PwConstantProcess.steps m (pw_3_2 false) = Raise IndexError.
Proof.
  apply (PwConstantProcess_non_seasonal_raises (pw_3_2 false)).
  reflexivity.
Defined.

(** ** Devices *)

Lemma tick_down_expired n : Nat.iter n tick_down 0 = 0.
Proof. induction n as [|n IH]; simpl; [|rewrite IH]; reflexivity. Qed.

Lemma tick_down_2 n : (2 <= n)%nat -> Nat.iter n tick_down 2 = 0.
Proof.
  intros Hn. replace n with ((n - 2) + 2)%nat by lia.
  rewrite Nat.iter_add. simpl. apply tick_down_expired.
Qed.

Section DoomedDevice_facts.
Context {B : Type} `{Device.Interface B}.
Import DoomedDevice.

Lemma DoomedDevice_step_eq rd (self : state B) g :
  Device.step rd self g
  = ({| name := name self;
        base_device := fst (Device.step rd (base_device self) g);
        time_remaining := tick_down (time_remaining self) |},
     snd (Device.step rd (base_device self) g)).
Proof.
  cbn [Device.step device]. unfold step, bind.
  destruct (Device.step rd (base_device self) g) as [b' g'].
  cbn [name base_device time_remaining fst snd]. unfold tick_down.
  destruct (time_remaining self >? 0); reflexivity.
Qed.

(** A doomed device forwards every [step()] to the device it wraps, with
    the same draws, and counts down beside it. *)
Lemma DoomedDevice_run sched n (self : state B) g :
  run Device.step sched n self g
  = ({| name := name self;
        base_device := fst (run Device.step sched n (base_device self) g);
        time_remaining := Nat.iter n tick_down (time_remaining self) |},
     snd (run Device.step sched n (base_device self) g)).
Proof.
  induction n as [|n IH].
  - simpl. unfold ret. destruct self; reflexivity.
  - cbn [run]. unfold bind. rewrite IH.
    destruct (run Device.step sched n (base_device self) g) as [b' g'].
    cbn [fst snd]. rewrite DoomedDevice_step_eq. reflexivity.
Qed.

(** C6: a [DoomedDevice] with lifetime 2 reads what the wrapped device
    reads at ticks 0 and 1 (so a present value wherever that one is
    present); from tick 2 on its counter is 0 and [get()] is absent,
    whatever the wrapped device would return. *)
Theorem DoomedDevice_lifetime_2 (nm : string) (b : B) sched g :
  let at_tick n := fst (run Device.step sched n (init nm b 2) g) in
  let base_at n := fst (run Device.step sched n b g) in
  Device.get (at_tick 0%nat) = Device.get (base_at 0%nat) /\
  Device.get (at_tick 1%nat) = Device.get (base_at 1%nat) /\
  forall n, (2 <= n)%nat ->
    time_remaining (at_tick n) = 0 /\ Device.get (at_tick n) = None.
Proof.
  intros at_tick base_at. subst at_tick base_at. cbv beta.
  split; [reflexivity|]. split.
  - rewrite DoomedDevice_run. reflexivity.
  - intros n Hn. rewrite DoomedDevice_run. cbn [fst time_remaining init].
    cbn [Device.get device get time_remaining].
    rewrite tick_down_2 by exact Hn. split; reflexivity.
Qed.

End DoomedDevice_facts.

Lemma DoomedDevice_lifetime_2_witness :
  let d := DoomedDevice.init "doomed" (thermometer 0%Q 1%Q) 2 in
  Device.get d = Some 1%Q /\
  Device.get (fst (run Device.step counting 1 d rng_half)) = Some 2%Q /\
  Device.get (fst (run Device.step counting 2 d rng_half)) = None /\
  Device.get (fst (run Device.step counting 5 d rng_half)) = None.
Proof.
  pose proof (DoomedDevice_lifetime_2 "doomed" (thermometer 0%Q 1%Q) counting
                rng_half) as (H0 & H1 & Hdead).
  cbv zeta. split; [exact H0|]. split; [exact H1|].
  split; apply Hdead; lia.
Defined.

Section StickyDevice_facts.
Context {B : Type} `{Device.Interface B}.
Import StickyDevice.

Lemma StickyDevice_step_eq rd (self : state B) g :
  Device.step rd self g
  = ({| name := name self;
        base_device := fst (Device.step rd (base_device self) g);
        time_remaining := tick_down (time_remaining self);
        value := if time_remaining self >? 0
                 then Device.get (fst (Device.step rd (base_device self) g))
                 else value self |},
     snd (Device.step rd (base_device self) g)).
Proof.
  cbn [Device.step device]. unfold step, bind.
  destruct (Device.step rd (base_device self) g) as [b' g'].
  cbn [name base_device time_remaining value fst snd]. unfold tick_down.
  destruct (time_remaining self >? 0); reflexivity.
Qed.

(** A sticky device forwards every [step()] to the device it wraps, with
    the same draws, also once it is frozen. *)
Lemma StickyDevice_run sched n (self : state B) g :
  base_device (fst (run Device.step sched n self g))
    = fst (run Device.step sched n (base_device self) g) /\
  time_remaining (fst (run Device.step sched n self g))
    = Nat.iter n tick_down (time_remaining self) /\
  snd (run Device.step sched n self g)
    = snd (run Device.step sched n (base_device self) g).
Proof.
  induction n as [|n IH].
  - simpl. auto.
  - cbn [run]. unfold bind.
    destruct (run Device.step sched n self g) as [s' g'].
    destruct (run Device.step sched n (base_device self) g) as [b' g1].
    cbn [fst snd] in IH. destruct IH as (Hb & Ht & Hg). subst b' g1.
    rewrite StickyDevice_step_eq. cbn [fst snd base_device time_remaining].
    rewrite Ht. auto.
Qed.

(** The cached value after one more step: refreshed from the wrapped
    device, already stepped, while the counter is positive; kept
    otherwise. *)
Lemma StickyDevice_value_step sched n (self : state B) g :
  value (fst (run Device.step sched (S n) self g))
  = if Nat.iter n tick_down (time_remaining self) >? 0
    then Device.get (fst (run Device.step sched (S n) (base_device self) g))
    else value (fst (run Device.step sched n self g)).
Proof.
  destruct (StickyDevice_run sched n self g) as (Hb & Ht & Hg).
  cbn [run]. unfold bind.
  destruct (run Device.step sched n self g) as [s' g'].
  destruct (run Device.step sched n (base_device self) g) as [b' g1].
  cbn [fst snd] in *. subst b' g1. rewrite <- Ht.
  rewrite StickyDevice_step_eq. reflexivity.
Qed.

(** C5: a [StickyDevice] with lifetime 2 around a device that reads 1, 2,
    3, 4 at ticks 0 to 3 reads 1 when constructed, 2 after the first step
    (counter 1), 3 after the second (counter 0) and 3 at every later tick;
    at every tick the wrapped device has been stepped as often as the
    sticky one, and each refresh reads it after its step. *)
Theorem StickyDevice_lifetime_2 (nm : string) (b : B) sched g :
  let base_at n := fst (run Device.step sched n b g) in
  Device.get (base_at 0%nat) = Some 1%Q ->
  Device.get (base_at 1%nat) = Some 2%Q ->
  Device.get (base_at 2%nat) = Some 3%Q ->
  Device.get (base_at 3%nat) = Some 4%Q ->
  let at_tick n := fst (run Device.step sched n (init nm b 2) g) in
  Device.get (at_tick 0%nat) = Some 1%Q /\
  (Device.get (at_tick 1%nat) = Some 2%Q /\
   time_remaining (at_tick 1%nat) = 1) /\
  (Device.get (at_tick 2%nat) = Some 3%Q /\
   time_remaining (at_tick 2%nat) = 0) /\
  (forall n, (2 <= n)%nat ->
     Device.get (at_tick n) = Some 3%Q /\ time_remaining (at_tick n) = 0) /\
  (forall n, base_device (at_tick n) = base_at n).
Proof.
  intros base_at H0 H1 H2 H3 at_tick. subst base_at at_tick.
  cbv beta in *.
  assert (V1 : value (fst (run Device.step sched 1 (init nm b 2) g))
               = Some 2%Q).
  { rewrite StickyDevice_value_step. exact H1. }
  assert (V2 : value (fst (run Device.step sched 2 (init nm b 2) g))
               = Some 3%Q).
  { rewrite StickyDevice_value_step. exact H2. }
  assert (T : forall n, time_remaining
                (fst (run Device.step sched n (init nm b 2) g))
              = Nat.iter n tick_down 2).
  { intros n. apply (StickyDevice_run sched n (init nm b 2) g). }
  assert (V : forall n, (2 <= n)%nat ->
            value (fst (run Device.step sched n (init nm b 2) g))
            = Some 3%Q).
  { intros n Hn. induction n as [|n IH]; [lia|].
    destruct (Nat.eq_dec n 1%nat) as [->|Hne]; [exact V2|].
    rewrite StickyDevice_value_step. cbn [time_remaining init].
    rewrite tick_down_2 by lia. apply IH. lia. }
  split; [exact H0|]. split; [split; [exact V1|apply T]|].
  split; [split; [exact V2|apply T]|]. split.
  - intros n Hn. split; [apply V; exact Hn|].
    rewrite T. apply tick_down_2. exact Hn.
  - intros n. apply (StickyDevice_run sched n (init nm b 2) g).
Qed.

End StickyDevice_facts.

Lemma StickyDevice_lifetime_2_witness :
  let d := StickyDevice.init "sticky" (thermometer 0%Q 1%Q) 2 in
  let at_tick n := fst (run Device.step counting n d rng_half) in
  Device.get (at_tick 0%nat) = Some 1%Q /\
  (Device.get (at_tick 1%nat) = Some 2%Q /\
   StickyDevice.time_remaining (at_tick 1%nat) = 1) /\
  (Device.get (at_tick 2%nat) = Some 3%Q /\
   StickyDevice.time_remaining (at_tick 2%nat) = 0) /\
  (forall n, (2 <= n)%nat ->
     Device.get (at_tick n) = Some 3%Q /\
     StickyDevice.time_remaining (at_tick n) = 0) /\
  (forall n, StickyDevice.base_device (at_tick n)
             = fst (run Device.step counting n (thermometer 0%Q 1%Q) rng_half)).
Proof.
  apply (StickyDevice_lifetime_2 "sticky" (thermometer 0%Q 1%Q) counting
           rng_half); reflexivity.
Defined.

Section BasicDevice_facts.
Import BasicDevice.

(** C9: the constructor samples the measurement once and stores the sample,
    so [get()] before the first [step()] is that fresh sample, a present
    value, for every [p_skip]; nothing is drawn against [p_skip]. *)
Theorem BasicDevice_initial_reading_present rd nm m p meas tgs g :
  get (fst (init rd nm m p meas tgs g)) = Some (fst (Measurement.get rd m g))
  /\ snd (init rd nm m p meas tgs g) = snd (Measurement.get rd m g).
Proof.
  unfold init, bind. destruct (Measurement.get rd m g) as [v g'].
  split; reflexivity.
Qed.

Lemma BasicDevice_step_skip rd self g :
  (p_skip self == 1)%Q -> fair g ->
  step rd self g = (set_value self None, advance g).
Proof.
  intros Hp Hg. unfold step, bind.
  destruct (Qeq_bool (p_skip self) 0) eqn:E0.
  { apply Qeq_bool_iff in E0. rewrite Hp in E0. discriminate E0. }
  unfold ret at 1, random. unfold Qltb.
  destruct (Qle_bool (p_skip self) (uniform_tape g (drawn g))) eqn:E1.
  { apply Qle_bool_iff in E1. rewrite Hp in E1.
    destruct (Hg (drawn g)) as [_ Hlt].
    exfalso. exact (Qlt_not_le _ _ Hlt E1). }
  reflexivity.
Qed.

Lemma BasicDevice_run_skip sched n self g :
  (p_skip self == 1)%Q -> fair g ->
  run step sched (S n) self g
  = (set_value self None, Nat.iter (S n) advance g).
Proof.
  intros Hp Hg. induction n as [|n IH].
  - simpl. unfold bind, ret. apply BasicDevice_step_skip; assumption.
  - cbn [run] in *. unfold bind at 1. rewrite IH.
    rewrite BasicDevice_step_skip; [reflexivity|exact Hp|].
    clear IH. generalize (S n). intros k. induction k as [|k IHk];
      [exact Hg|]. intros i. apply (IHk i).
Qed.

(** C7: with [p_skip = 1.0] every reading after a [step()] is absent,
    for every number of steps and every outcome of the uniform draws in
    [0, 1). *)
Theorem BasicDevice_always_skips sched n self g :
  (p_skip self == 1)%Q -> fair g -> (1 <= n)%nat ->
  get (fst (run step sched n self g)) = None.
Proof.
  intros Hp Hg Hn. destruct n as [|n]; [lia|].
  rewrite BasicDevice_run_skip by assumption. reflexivity.
Qed.

End BasicDevice_facts.

Lemma BasicDevice_always_skips_witness :
  BasicDevice.get
    (fst (run BasicDevice.step counting 3 (thermometer 1%Q 21%Q) rng_half))
  = None.
Proof.
  apply (BasicDevice_always_skips counting 3 (thermometer 1%Q 21%Q) rng_half).
  - reflexivity.
  - exact rng_half_fair.
  - lia.
Defined.

(** ** Environment *)

Section Environment_facts.
Import Environment.

(** Live mode: [write_device] returns before anything is written when the
    reading is absent. *)
Lemma Environment_write_device_absent d bucket api :
  device_get d = None -> write_device d bucket api = Ok api.
Proof. intros Hd. unfold write_device. rewrite Hd. reflexivity. Qed.

Lemma Environment_write_device_point d bucket api :
  write_device d bucket api
  = result_bind (point_of bucket d) (fun pts => Ok (api ++ pts)).
Proof.
  unfold write_device, point_of. destruct (device_get d) as [v|]; simpl.
  - destruct (float v); reflexivity.
  - rewrite app_nil_r. reflexivity.
Qed.

(** Live mode, one tick: the devices are stepped in order, and the log
    grows by the points of the devices that have a reading after their
    step, and by nothing else. *)
Lemma Environment_influx_devices_log rd bucket ds api g ds' api' :
  fst (influx_devices rd bucket ds api g) = Ok (ds', api') ->
  ds' = fst (step_devices rd ds g) /\
  exists ptss,
    Forall2 (fun d pts => point_of bucket d = Ok pts) ds' ptss /\
    api' = api ++ concat ptss.
Proof.
  revert api g ds' api'. induction ds as [|d ds IH]; intros api g ds' api'.
  - simpl. intros Hrun. injection Hrun as <- <-. split; [reflexivity|].
    exists []. split; [constructor|]. simpl. rewrite app_nil_r. reflexivity.
  - cbn [influx_devices step_devices]. unfold bind at 1 3.
    destruct (device_step rd d g) as [d' g1].
    rewrite Environment_write_device_point.
    destruct (point_of bucket d') as [pts|e] eqn:Hpts; cbn [result_bind];
      [|discriminate]. unfold bind.
    specialize (IH (api ++ pts) g1).
    destruct (influx_devices rd bucket ds (api ++ pts) g1)
      as [[[ds1 api1]|e] g2]; cbn [fst ret]; [|discriminate].
    intros Hrun. injection Hrun as <- <-.
    destruct (IH ds1 api1 eq_refl) as (Hds & ptss & Hall & ->).
    destruct (step_devices rd ds g1) as [ds2 g3]. cbn [fst] in *. subst ds2.
    split; [reflexivity|]. exists (pts :: ptss).
    split; [constructor; assumption|]. cbn [concat].
    rewrite <- app_assoc. reflexivity.
Qed.

(** Batch mode: when the file is written without error it grows by one
    row for each device, and the row carries whatever [get()] returns,
    present or absent. *)
Lemma Environment_generate_devices_rows rd time ds file g ds' file' :
  fst (generate_devices rd time ds file g) = Ok (ds', file') ->
  exists lines, file' = file ++ lines /\
    Forall2 (fun d line => row d time = Ok line) ds' lines.
Proof.
  revert file g ds' file'. induction ds as [|d ds IH];
    intros file g ds' file' Hrun.
  - simpl in Hrun. injection Hrun as <- <-. exists [].
    rewrite app_nil_r. split; [reflexivity|constructor].
  - cbn [generate_devices] in Hrun. unfold bind at 1 in Hrun.
    destruct (device_step rd d g) as [d' g1].
    destruct (row d' time) as [line|e] eqn:Hrow; [|discriminate Hrun].
    unfold bind in Hrun. specialize (IH (file ++ [line]) g1).
    destruct (generate_devices rd time ds (file ++ [line]) g1)
      as [[[ds1 file1]|e] g2]; cbn [fst ret] in *; [|discriminate Hrun].
    injection Hrun as <- <-.
    destruct (IH ds1 file1 eq_refl) as (lines & -> & Hall).
    exists (line :: lines). rewrite <- app_assoc. split; [reflexivity|].
    constructor; assumption.
Qed.

(** C8 on the code, batch mode: [generate_data(steps=1, dt=1)] on an
    environment whose only device always skips ([p_skip = 1.0]) writes,
    after the two header lines, a data row for that device, with the
    absent reading as its value. *)
Theorem Environment_generate_data_writes_absent :
  Device.get
    (fst (Device.step (readings_of (processes (one_room 1%Q)))
            (thermometer 1%Q 21%Q) rng_half)) = None /\
  exists self',
    fst (generate_data 0 1 1 (one_room 1%Q) rng_half)
    = Ok (self',
          [Text "#datatype measurement,double,dateTime,tag,tag";
           Text "m,value,time,room_id,sensor_id";
           Row "temperature" None 0 "1" "2"]).
Proof.
  split; [reflexivity|]. eexists. vm_compute. reflexivity.
Qed.

(** Live mode on the same environment: nothing reaches the write API. *)
Example Environment_run_influx_skips_absent :
  exists self',
    fst (run_influx 1 "smart_uni" (one_room 1%Q) [] rng_half)
    = Ok (self', []).
Proof. eexists. vm_compute. reflexivity. Qed.

End Environment_facts.

(** * Further properties of the code *)

(** ** ReplayedProcess *)

Section ReplayedProcess_facts.
Import ReplayedProcess.

Lemma ReplayedProcess_iter_samples n self :
  samples (Nat.iter n step self) = samples self.
Proof.
  induction n as [|n IH]; [reflexivity|]. simpl. unfold step at 1.
  cbn [samples t]. destruct (_ >? _); cbn [samples]; exact IH.
Qed.

Lemma ReplayedProcess_iter_t n smp :
  smp <> [] ->
  t (Nat.iter n step (init smp)) = Z.of_nat (n mod length smp).
Proof.
  intros Hne. assert (Hlen : (0 < length smp)%nat).
  { destruct smp; [congruence|simpl; lia]. }
  induction n as [|n IH].
  - simpl. rewrite Nat.Div0.mod_0_l. reflexivity.
  - simpl. unfold step at 1. cbn [samples t].
    rewrite ReplayedProcess_iter_samples, IH. cbn [init samples].
    pose proof (Nat.mod_upper_bound n (length smp) ltac:(lia)) as Hr.
    pose proof (Nat.div_mod_eq n (length smp)) as Hn.
    destruct (Z.gtb_spec (Z.of_nat (n mod length smp) + 1)
                (Z.of_nat (length smp) - 1)) as [Hwrap|Hstay]; cbn [t].
    + change 0 with (Z.of_nat 0). f_equal.
      apply (Nat.mod_unique _ _ (S (n / length smp))); lia.
    + replace (Z.of_nat (n mod length smp) + 1)
        with (Z.of_nat (S (n mod length smp))) by lia. f_equal.
      apply (Nat.mod_unique _ _ (n / length smp)); lia.
Qed.

(** X1: A [ReplayedProcess] on a non-empty list never fails: after [n] calls of
    [step()], [get()] returns sample number [n mod len(samples)], so the
    list is replayed in order, round and round. *)
Theorem ReplayedProcess_replays smp n :
  smp <> [] ->
  exists x, smp !! (n mod length smp)%nat = Some x /\
            get (Nat.iter n step (init smp)) = Ok x.
Proof.
  intros Hne. assert (Hlen : (0 < length smp)%nat).
  { destruct smp; [congruence|simpl; lia]. }
  pose proof (Nat.mod_upper_bound n (length smp) ltac:(lia)) as Hr.
  destruct (lookup_lt_is_Some_2 smp (n mod length smp)%nat Hr) as [x Hx].
  exists x. split; [exact Hx|].
  unfold get. rewrite ReplayedProcess_iter_samples, ReplayedProcess_iter_t
    by exact Hne.
  cbn [init samples]. unfold getitem.
  destruct (Z.leb_spec 0 (Z.of_nat (n mod length smp))); [|lia].
  rewrite Nat2Z.id. unfold index. rewrite Hx. reflexivity.
Qed.

(** X2: On the empty list [step()] keeps the index at 0 and every [get()]
    raises [IndexError]. *)
Theorem ReplayedProcess_empty n :
  t (Nat.iter n step (init [])) = 0 /\
  get (Nat.iter n step (init [])) = Raise IndexError.
Proof.
  assert (Ht : t (Nat.iter n step (init [])) = 0).
  { induction n as [|n IH]; [reflexivity|]. simpl. unfold step at 1.
    cbn [samples t]. rewrite ReplayedProcess_iter_samples, IH. reflexivity. }
  split; [exact Ht|]. unfold get.
  rewrite ReplayedProcess_iter_samples, Ht. reflexivity.
Qed.

End ReplayedProcess_facts.

Lemma ReplayedProcess_replays_witness :
  exists x, [10%Q; 20%Q; 30%Q] !! (7 mod 3)%nat = Some x /\
    ReplayedProcess.get
      (Nat.iter 7 ReplayedProcess.step
         (ReplayedProcess.init [10%Q; 20%Q; 30%Q])) = Ok x.
Proof.
  apply (ReplayedProcess_replays [10%Q; 20%Q; 30%Q] 7). discriminate.
Defined.

(** ** PwConstantProcess, continued *)

Section PwConstantProcess_more.
Import PwConstantProcess.

Lemma PwConstantProcess_step_current self s :
  step self = Ok s ->
  values self !! phase self = Some (value self) ->
  phase_lengths s = phase_lengths self /\ values s = values self /\
  seasonal s = seasonal self /\
  values s !! phase s = Some (value s).
Proof.
  intros Hstep Hcur. unfold step, index in Hstep.
  destruct (phase_lengths self !! phase self) as [len|]; [|discriminate].
  cbn [result_bind] in Hstep. destruct (t self + 1 >? len).
  - match type of Hstep with context [values self !! ?p] =>
      destruct (values self !! p) as [v|] eqn:Hv; [|discriminate] end.
    cbn [result_bind] in Hstep. injection Hstep as <-.
    cbn [phase_lengths values seasonal phase value]. auto.
  - injection Hstep as <-.
    cbn [phase_lengths values seasonal phase value]. auto.
Qed.

(** X3: As long as no call has raised, [get()] is [values[phase]], and the
    two lists and the seasonal flag are the ones given to the constructor;
    this holds for seasonal and non-seasonal processes. *)
Theorem PwConstantProcess_value_is_current lens vals seas self n s :
  init lens vals seas = Ok self ->
  steps n self = Ok s ->
  phase_lengths s = lens /\ values s = vals /\ seasonal s = seas /\
  vals !! phase s = Some (get s).
Proof.
  intros Hinit. unfold init, index in Hinit.
  destruct (vals !! 0%nat) as [v|] eqn:Hv; [|discriminate].
  cbn [result_bind] in Hinit. injection Hinit as <-.
  revert s. induction n as [|n IH]; intros s Hn.
  - injection Hn as <-. cbn. auto.
  - simpl in Hn. destruct (steps n _) as [s0|e] eqn:Hs0; [|discriminate].
    cbn [result_bind] in Hn.
    destruct (IH s0 eq_refl) as (Hl & Hvs & Hseas & Hcur).
    rewrite <- Hvs in Hcur.
    destruct (PwConstantProcess_step_current s0 s Hn Hcur)
      as (Hl' & Hvs' & Hseas' & Hcur').
    unfold get. rewrite <- Hvs, <- Hvs'. split; [congruence|].
    split; [reflexivity|]. split; [congruence|]. exact Hcur'.
Qed.

Lemma PwConstantProcess_step_seasonal_ok self :
  seasonal self = true ->
  (phase self < length (values self))%nat ->
  (length (values self) <= length (phase_lengths self))%nat ->
  exists s, step self = Ok s /\
    phase_lengths s = phase_lengths self /\ values s = values self /\
    seasonal s = true /\ (phase s < length (values s))%nat.
Proof.
  intros Hs Hp Hlen. unfold step, index.
  destruct (lookup_lt_is_Some_2 (phase_lengths self) (phase self)
              ltac:(lia)) as [len Hl].
  rewrite Hl. cbn [result_bind]. rewrite Hs. cbn [andb].
  destruct (t self + 1 >? len).
  - destruct (Z.gtb_spec (Z.of_nat (S (phase self)))
                (Z.of_nat (length (values self)) - 1)) as [Hwrap|Hnext].
    + destruct (lookup_lt_is_Some_2 (values self) 0%nat ltac:(lia))
        as [v Hv].
      rewrite Hv. eexists. split; [reflexivity|]. cbn. auto with lia.
    + destruct (lookup_lt_is_Some_2 (values self) (S (phase self))
                  ltac:(lia)) as [v Hv].
      rewrite Hv. eexists. split; [reflexivity|]. cbn.
      repeat split; lia.
  - eexists. split; [reflexivity|]. cbn. auto.
Qed.

(** X4: A seasonal process constructed with at least as many phase lengths as
    values never raises: every call of [step()] returns, whatever the
    lengths are (a negative length is left at once; lengths beyond the
    number of values are never read). *)
Theorem PwConstantProcess_seasonal_never_raises lens vals self n :
  init lens vals true = Ok self ->
  (length vals <= length lens)%nat ->
  exists s, steps n self = Ok s.
Proof.
  intros Hinit Hlen. unfold init, index in Hinit.
  destruct (vals !! 0%nat) as [v|] eqn:Hv; [|discriminate].
  cbn [result_bind] in Hinit. injection Hinit as <-.
  apply lookup_lt_Some in Hv.
  match goal with |- exists s, steps n ?s0 = _ =>
    assert (H : exists s, steps n s0 = Ok s /\
              phase_lengths s = lens /\ values s = vals /\
              seasonal s = true /\ (phase s < length (values s))%nat) end.
  { induction n as [|n IH].
    - eexists. split; [reflexivity|]. cbn. auto.
    - destruct IH as (s0 & Hs0 & Hl & Hvs & Hseas & Hp).
      destruct (PwConstantProcess_step_seasonal_ok s0 Hseas Hp)
        as (s & Hstep & Hl' & Hvs' & Hseas' & Hp').
      { rewrite Hl, Hvs. exact Hlen. }
      exists s. simpl. rewrite Hs0. cbn [result_bind].
      split; [exact Hstep|]. repeat split; congruence || assumption. }
  destruct H as (s & Hs & _). exists s. exact Hs.
Qed.

(** X5: A seasonal process constructed with as many lengths as values, none
    negative, is periodic from the first tick on: its state after
    [n + sum(len + 1)] calls of [step()] is its state after [n] calls. *)
Theorem PwConstantProcess_seasonal_periodic lens vals self n :
  init lens vals true = Ok self ->
  length lens = length vals ->
  Forall (fun len => 0 <= len) lens ->
  steps (n + PwConstant_ticks lens) self = steps n self.
Proof.
  intros Hinit Hlen Hpos. rewrite Nat.add_comm.
  rewrite PwConstantProcess_steps_add.
  rewrite (PwConstantProcess_cycle lens vals self Hinit Hlen Hpos).
  reflexivity.
Qed.

(** With fewer phase lengths than values the wrap is never reached: the
    phase walks off the end of [phase_lengths]. *)
Lemma PwConstantProcess_short_lengths_exhaust k j self :
  (length (phase_lengths self) < length (values self))%nat ->
  (phase self <= length (phase_lengths self))%nat ->
  (length (phase_lengths self) - phase self <= k)%nat ->
  (forall len, phase_lengths self !! phase self = Some len ->
               len - t self <= Z.of_nat j) ->
  exists n, steps n self = Raise IndexError.
Proof.
  revert j self. induction k as [|k IHk].
  - intros j self _ _ Hk _. exists 1%nat. simpl. unfold step, index.
    rewrite lookup_ge_None_2 by lia. reflexivity.
  - induction j as [|j IHj]; intros self Hshort Hp Hk Hj.
    + destruct (phase_lengths self !! phase self) as [len|] eqn:Hlen.
      * specialize (Hj len eq_refl).
        pose proof (lookup_lt_Some _ _ _ Hlen) as Hlt.
        pose proof (PwConstantProcess_step_advance self len Hlen
                      ltac:(lia)) as Hstep.
        assert (Hnext : PwConstant_next_phase self = S (phase self)).
        { unfold PwConstant_next_phase.
          destruct (Z.gtb_spec (Z.of_nat (S (phase self)))
                      (Z.of_nat (length (values self)) - 1)); [lia|].
          rewrite andb_false_r. reflexivity. }
        rewrite Hnext in Hstep. unfold PwConstant_enter, index in Hstep.
        destruct (lookup_lt_is_Some_2 (values self) (S (phase self))
                    ltac:(lia)) as [v Hv].
        rewrite Hv in Hstep. cbn [result_bind] in Hstep.
        match type of Hstep with _ = Ok ?s' =>
          destruct (IHk (Z.to_nat (Z.max 0
                           (match phase_lengths s' !! phase s' with
                            | Some l => l | None => 0 end))) s')
            as [n Hn] end.
        -- exact Hshort.
        -- cbn [phase_lengths phase]. lia.
        -- cbn [phase_lengths phase]. lia.
        -- intros l Hl. rewrite Hl. cbn [t]. lia.
        -- exists (S n). rewrite PwConstantProcess_steps_S, Hstep.
           exact Hn.
      * exists 1%nat. simpl. unfold step, index. rewrite Hlen. reflexivity.
    + destruct (phase_lengths self !! phase self) as [len|] eqn:Hlen.
      * specialize (Hj len eq_refl).
        destruct (Z_le_gt_dec (t self + 1) len) as [Hle|Hgt].
        -- pose proof (PwConstantProcess_step_hold self len Hlen Hle)
             as Hstep.
           destruct (IHj (PwConstant_hold self (t self + 1))) as [n Hn].
           ++ exact Hshort.
           ++ exact Hp.
           ++ exact Hk.
           ++ intros l Hl. cbn in Hl. rewrite Hlen in Hl.
              injection Hl as <-. cbn. lia.
           ++ exists (S n). rewrite PwConstantProcess_steps_S, Hstep.
              exact Hn.
        -- apply (IHj self Hshort Hp Hk). intros l Hl. rewrite Hlen in Hl.
           injection Hl as <-. lia.
      * exists 1%nat. simpl. unfold step, index. rewrite Hlen. reflexivity.
Qed.

(** X6: A process constructed with fewer phase lengths than values, seasonal
    or not, raises [IndexError] after finitely many calls of [step()], and
    no later call returns. *)
Theorem PwConstantProcess_short_lengths_raise lens vals seas self :
  init lens vals seas = Ok self ->
  (length lens < length vals)%nat ->
  exists n, forall m, (n <= m)%nat -> steps m self = Raise IndexError.
Proof.
  intros Hinit Hshort. unfold init, index in Hinit.
  destruct (vals !! 0%nat) as [v|] eqn:Hv; [|discriminate].
  cbn [result_bind] in Hinit. injection Hinit as <-.
  match goal with |- exists n, forall m, _ -> steps m ?s0 = _ =>
    destruct (PwConstantProcess_short_lengths_exhaust
                (length lens)
                (Z.to_nat (match lens !! 0%nat with
                           | Some l => l
                           | None => 0
                           end))
                s0) as [n Hn] end.
  - exact Hshort.
  - cbn. lia.
  - cbn. lia.
  - cbn. intros len Hl. rewrite Hl. lia.
  - exists n. intros m Hm.
    exact (PwConstantProcess_raised_for_good n m _ Hn Hm).
Qed.

End PwConstantProcess_more.

Lemma PwConstantProcess_value_is_current_witness :
  PwConstantProcess.phase_lengths (PwConstant_hold (pw_3_2_last true) 1)
    = [3; 2] /\
  PwConstantProcess.values (PwConstant_hold (pw_3_2_last true) 1)
    = [10%Q; 20%Q] /\
  PwConstantProcess.seasonal (PwConstant_hold (pw_3_2_last true) 1) = true /\
  [10%Q; 20%Q]
    !! PwConstantProcess.phase (PwConstant_hold (pw_3_2_last true) 1)
  = Some (PwConstantProcess.get (PwConstant_hold (pw_3_2_last true) 1)).
Proof.
  apply (PwConstantProcess_value_is_current [3; 2] [10%Q; 20%Q] true
           (pw_3_2 true) 5); reflexivity.
Defined.

Lemma PwConstantProcess_seasonal_never_raises_witness :
  exists s, PwConstantProcess.steps 100 (pw_3_2 true) = Ok s.
Proof.
  apply (PwConstantProcess_seasonal_never_raises [3; 2] [10%Q; 20%Q]).
  - reflexivity.
  - simpl. lia.
Defined.

Lemma PwConstantProcess_seasonal_periodic_witness :
  PwConstantProcess.steps (5 + PwConstant_ticks [3; 2]) (pw_3_2 true)
  = PwConstantProcess.steps 5 (pw_3_2 true).
Proof.
  apply (PwConstantProcess_seasonal_periodic [3; 2] [10%Q; 20%Q]).
  - reflexivity.
  - reflexivity.
  - repeat constructor; lia.
Defined.

Lemma PwConstantProcess_short_lengths_raise_witness :
  exists n, forall m, (n <= m)%nat ->
    PwConstantProcess.steps m
      {| PwConstantProcess.phase_lengths := [3];
         PwConstantProcess.values := [10%Q; 20%Q];
         PwConstantProcess.seasonal := true;
         PwConstantProcess.t := 0;
         PwConstantProcess.phase := 0%nat;
         PwConstantProcess.value := 10%Q |}
    = Raise IndexError.
Proof.
  apply (PwConstantProcess_short_lengths_raise [3] [10%Q; 20%Q] true).
  - reflexivity.
  - simpl. lia.
Defined.

(** ** BirthDeathProcess, continued *)

Section BirthDeathProcess_more.
Import BirthDeathProcess.

(** X8: Deaths are subtracted after the clamp: with [limit = L > 0], a call of
    [step()] that draws [n_death] deaths ends at most at [L - n_death] (or
    at 0), however many births it drew. *)
Theorem BirthDeathProcess_deaths_after_clamp rd self g :
  0 < limit self ->
  get (fst (step rd self g))
  <= Z.max 0 (limit self - Z.of_N (poisson_tape g (S (drawn g)))).
Proof.
  intros HL. unfold step, bind, poisson, ret, get. cbn.
  destruct (limit self >? 0) eqn:E; cbn.
  - lia.
  - rewrite Z.gtb_ltb, Z.ltb_ge in E. lia.
Qed.

(** X9: [limit <= 0] means no upper limit, for negative limits as for 0: the
    value is never clamped, and a call of [step()] that draws [n_birth]
    births and [n_death] deaths ends at [max(0, value + n_birth -
    n_death)]. *)
Theorem BirthDeathProcess_unlimited rd self g :
  limit self <= 0 ->
  get (fst (step rd self g))
  = Z.max 0 (value self + Z.of_N (poisson_tape g (drawn g))
             - Z.of_N (poisson_tape g (S (drawn g)))).
Proof.
  intros HL. unfold step, bind, poisson, ret, get. cbn.
  destruct (limit self >? 0) eqn:E.
  - rewrite Z.gtb_ltb, Z.ltb_lt in E. lia.
  - reflexivity.
Qed.

End BirthDeathProcess_more.

Lemma BirthDeathProcess_deaths_after_clamp_witness :
  BirthDeathProcess.get
    (fst (BirthDeathProcess.step (counting 0)
            (BirthDeathProcess.init 0%nat 1%nat 7 5) rng_half))
  <= Z.max 0 (5 - 1).
Proof.
  apply (BirthDeathProcess_deaths_after_clamp (counting 0)
           (BirthDeathProcess.init 0%nat 1%nat 7 5) rng_half).
  simpl. lia.
Defined.

Lemma BirthDeathProcess_unlimited_witness :
  BirthDeathProcess.get
    (fst (BirthDeathProcess.step (counting 0)
            (BirthDeathProcess.init 0%nat 1%nat 9 (-3)) rng_half))
  = Z.max 0 (9 + 1 - 1).
Proof.
  apply (BirthDeathProcess_unlimited (counting 0)
           (BirthDeathProcess.init 0%nat 1%nat 9 (-3)) rng_half).
  simpl. lia.
Defined.

(** ** OnOffProcess, continued *)

Lemma fair_advance g : fair g -> fair (advance g).
Proof. intros Hg i. exact (Hg i). Qed.

Lemma fair_iter_advance n g : fair g -> fair (Nat.iter n advance g).
Proof.
  intros Hg. induction n as [|n IH]; [exact Hg|].
  simpl. apply fair_advance. exact IH.
Qed.

Lemma Qltb_never u p : (0 <= u)%Q -> (p <= 0)%Q -> Qltb u p = false.
Proof.
  intros Hu Hp. unfold Qltb.
  assert (H : Qle_bool p u = true).
  { apply Qle_bool_iff. apply Qle_trans with 0%Q; assumption. }
  rewrite H. reflexivity.
Qed.

Lemma Qltb_always u p : (u < 1)%Q -> (1 <= p)%Q -> Qltb u p = true.
Proof.
  intros Hu Hp. unfold Qltb.
  destruct (Qle_bool p u) eqn:E; [|reflexivity].
  apply Qle_bool_iff in E. exfalso.
  apply (Qlt_not_le _ _ Hu). apply Qle_trans with p; assumption.
Qed.

Section OnOffProcess_more.
Import OnOffProcess.

Lemma OnOffProcess_step_rng rd self g :
  snd (step rd self g) = advance g.
Proof.
  unfold step, bind, random, ret.
  destruct (value self =? 0);
    match goal with |- context [Qltb ?u ?p] => destruct (Qltb u p) end;
    reflexivity.
Qed.

Lemma OnOffProcess_run_rng sched n self g :
  snd (run step sched n self g) = Nat.iter n advance g.
Proof.
  induction n as [|n IH]; [reflexivity|]. cbn [run]. unfold bind.
  destruct (run step sched n self g) as [s' g']. cbn [snd] in IH.
  rewrite OnOffProcess_step_rng, IH. reflexivity.
Qed.

(** X10: A process whose off-to-on probability reads 0 or less at every tick
    never turns on. *)
Theorem OnOffProcess_stays_off on_to_off off_to_on sched n g :
  fair g ->
  (forall k, (sched k off_to_on <= 0)%Q) ->
  get (fst (run step sched n (init on_to_off off_to_on) g)) = 0.
Proof.
  intros Hg Hp.
  assert (H : run step sched n (init on_to_off off_to_on) g
              = (init on_to_off off_to_on, Nat.iter n advance g)).
  { induction n as [|n IH]; [reflexivity|].
    cbn [run]. unfold bind. rewrite IH.
    unfold step, bind, random, ret. cbn [init value Z.eqb off_to_on_prob].
    rewrite Qltb_never; [reflexivity| |apply Hp].
    apply (fair_iter_advance n g Hg). }
  rewrite H. reflexivity.
Qed.

(** X11: A process whose two probabilities read 1 or more at every tick
    switches at every call of [step()]: after [n] calls it is on exactly
    when [n] is odd. *)
Theorem OnOffProcess_alternates on_to_off off_to_on sched n g :
  fair g ->
  (forall k, (1 <= sched k on_to_off)%Q /\ (1 <= sched k off_to_on)%Q) ->
  get (fst (run step sched n (init on_to_off off_to_on) g))
  = Z.of_nat (n mod 2).
Proof.
  intros Hg Hp.
  assert (H : run step sched n (init on_to_off off_to_on) g
              = (set_value (init on_to_off off_to_on) (Z.of_nat (n mod 2)),
                 Nat.iter n advance g)).
  { induction n as [|n IH]; [reflexivity|].
    cbn [run]. unfold bind. rewrite IH.
    assert (Hu : (uniform_tape (Nat.iter n advance g)
                    (drawn (Nat.iter n advance g)) < 1)%Q)
      by apply (fair_iter_advance n g Hg).
    destruct (Hp n) as [Hon Hoff].
    assert (Hmod : (n mod 2 = 0 /\ S n mod 2 = 1
                    \/ n mod 2 = 1 /\ S n mod 2 = 0)%nat).
    { pose proof (Nat.mod_upper_bound n 2 ltac:(lia)).
      pose proof (Nat.mod_upper_bound (S n) 2 ltac:(lia)).
      pose proof (Nat.div_mod_eq n 2). pose proof (Nat.div_mod_eq (S n) 2).
      lia. }
    destruct Hmod as [[-> ->]|[-> ->]];
      unfold step, bind, random, ret;
      change (Z.of_nat 0) with 0; change (Z.of_nat 1) with 1;
      cbn -[Nat.iter advance Qltb];
      rewrite (Qltb_always _ _ Hu) by assumption; reflexivity. }
  rewrite H. reflexivity.
Qed.

End OnOffProcess_more.

Lemma OnOffProcess_stays_off_witness :
  OnOffProcess.get
    (fst (run OnOffProcess.step (always 0%Q) 9
            (OnOffProcess.init 0%nat 1%nat) rng_half)) = 0.
Proof.
  apply (OnOffProcess_stays_off 0%nat 1%nat (always 0%Q) 9 rng_half).
  - exact rng_half_fair.
  - intros k. discriminate.
Defined.

Lemma OnOffProcess_alternates_witness :
  OnOffProcess.get
    (fst (run OnOffProcess.step (always 1%Q) 9
            (OnOffProcess.init 0%nat 1%nat) rng_half))
  = Z.of_nat (9 mod 2).
Proof.
  apply (OnOffProcess_alternates 0%nat 1%nat (always 1%Q) 9 rng_half).
  - exact rng_half_fair.
  - intros k. split; discriminate.
Defined.

(** ** BirthDeathProcess and the rates that numpy rejects *)

Section BirthDeathProcess_checked.
Import BirthDeathProcess.

Lemma poisson_checked_returned lam g n :
  fst (poisson_checked lam g) = Returned n ->
  poisson_checked lam g = (Returned (fst (poisson lam g)), snd (poisson lam g)).
Proof.
  unfold poisson_checked. destruct (float lam) as [f|e]; [|discriminate].
  destruct (Qltb f 0 || Qltb POISSON_LAM_MAX f); [discriminate|].
  intros _. unfold bind, ret. destruct (poisson lam g). reflexivity.
Qed.

(** A call of the checked step that returns is a call of
    [BirthDeathProcess.step]. *)
Lemma BirthDeathProcess_step_checked_returned rd self g s :
  fst (BirthDeathProcess_step_checked rd self g) = Returned s ->
  BirthDeathProcess_step_checked rd self g
  = (Returned (fst (step rd self g)), snd (step rd self g)).
Proof.
  unfold BirthDeathProcess_step_checked, step, bind.
  pose proof (poisson_checked_returned (rd (birth_rate self)) g) as Hb.
  destruct (poisson_checked (rd (birth_rate self)) g) as [[nb|] g1];
    [|discriminate].
  injection (Hb nb eq_refl) as -> ->.
  pose proof (poisson_checked_returned (rd (death_rate self)) (advance g))
    as Hd.
  destruct (poisson_checked (rd (death_rate self)) (advance g))
    as [[nd|] g2]; [|discriminate].
  injection (Hd nd eq_refl) as -> ->.
  intros _. reflexivity.
Qed.

Lemma BirthDeathProcess_step_checked_nonneg rd self g s :
  fst (BirthDeathProcess_step_checked rd self g) = Returned s ->
  0 <= value s.
Proof.
  intros H. pose proof (BirthDeathProcess_step_checked_returned _ _ _ _ H)
    as E. rewrite E in H. cbn [fst] in H. injection H as <-.
  unfold step, bind, poisson, ret. cbn. lia.
Qed.

(** X7: The lower limit is 0 for every [limit], also 0 ("infinity") and
    negative ones, and for every initial value: once a call of [step()] has
    returned, [get()] is never negative again.  A call in which numpy
    rejects a rate (a negative one, or one too large) raises before
    anything is assigned, so as long as no call has returned the object is
    as it was constructed. *)
Theorem BirthDeathProcess_never_negative sched n self g :
  let after := fst (BirthDeathProcess_run_checked sched n self g) in
  ((1 <= snd after)%nat -> 0 <= get (fst after)) /\
  (snd after = 0%nat -> fst after = self).
Proof.
  cbv zeta. unfold get. induction n as [|n IH].
  - simpl. split; [lia|reflexivity].
  - cbn [BirthDeathProcess_run_checked]. unfold bind.
    destruct (BirthDeathProcess_run_checked sched n self g)
      as [[s c] g1]. cbn [fst snd] in IH.
    pose proof (BirthDeathProcess_step_checked_nonneg (sched n) s g1)
      as Hstep. cbn [fst].
    destruct (BirthDeathProcess_step_checked (sched n) s g1)
      as [[s'|] g2]; cbn [fst snd ret] in *.
    + split; [intros _|lia]. exact (Hstep s' eq_refl).
    + exact IH.
Qed.

End BirthDeathProcess_checked.

Lemma BirthDeathProcess_never_negative_witness :
  0 <= BirthDeathProcess.get
         (fst (fst (BirthDeathProcess_run_checked counting 2
                      (BirthDeathProcess.init 0%nat 1%nat (-4) 0)
                      rng_half))) /\
  fst (fst (BirthDeathProcess_run_checked (always (-1 # 1)%Q) 2
              (BirthDeathProcess.init 0%nat 1%nat (-4) 0) rng_half))
  = BirthDeathProcess.init 0%nat 1%nat (-4) 0.
Proof.
  split.
  - apply (BirthDeathProcess_never_negative counting 2
             (BirthDeathProcess.init 0%nat 1%nat (-4) 0) rng_half).
    vm_compute. lia.
  - apply (BirthDeathProcess_never_negative (always (-1 # 1)%Q) 2
             (BirthDeathProcess.init 0%nat 1%nat (-4) 0) rng_half).
    reflexivity.
Defined.

(** ** Devices, continued *)

Lemma tick_down_iter n L :
  Nat.iter n tick_down L
  = if L <? 0 then L else Z.max 0 (L - Z.of_nat n).
Proof.
  induction n as [|n IH].
  - simpl. destruct (Z.ltb_spec L 0); lia.
  - change (Nat.iter (S n) tick_down L)
      with (tick_down (Nat.iter n tick_down L)).
    rewrite IH. unfold tick_down.
    destruct (Z.ltb_spec L 0).
    + destruct (Z.gtb_spec L 0); lia.
    + destruct (Z.gtb_spec (Z.max 0 (L - Z.of_nat n)) 0); lia.
Qed.

Section DoomedDevice_more.
Context {B : Type} `{Device.Interface B}.
Import DoomedDevice.

(** X12: A [DoomedDevice] with lifetime [L >= 0] reads what the wrapped device
    reads during its first [L] ticks (0 to [L - 1]) and is absent from tick
    [L] on; with [L = 0] it is absent from its construction; with a
    negative lifetime the counter never reaches 0 and the device never
    dies. *)
Theorem DoomedDevice_lifetime (nm : string) (b : B) (L : Z) sched n g :
  Device.get (fst (run Device.step sched n (init nm b L) g))
  = if (0 <=? L) && (L <=? Z.of_nat n) then None
    else Device.get (fst (run Device.step sched n b g)).
Proof.
  rewrite DoomedDevice_run. cbn [fst init name base_device time_remaining].
  cbn [Device.get device]. unfold get. cbn [time_remaining base_device].
  rewrite tick_down_iter.
  destruct (Z.ltb_spec L 0), (Z.leb_spec 0 L), (Z.leb_spec L (Z.of_nat n));
    cbn [andb];
    match goal with |- context [?a =? 0] => destruct (Z.eqb_spec a 0) end;
    reflexivity || lia.
Qed.

(** A [DoomedDevice] hands on the measurement name and the tags of the
    device it wraps, as that device has them at the same tick. *)
Lemma DoomedDevice_metadata (self : state B) sched n g :
  Device.get_influx_meas (fst (run Device.step sched n self g))
  = Device.get_influx_meas
      (fst (run Device.step sched n (base_device self) g)) /\
  Device.get_tags (fst (run Device.step sched n self g))
  = Device.get_tags (fst (run Device.step sched n (base_device self) g)).
Proof. rewrite DoomedDevice_run. split; reflexivity. Qed.

End DoomedDevice_more.

Section StickyDevice_more.
Context {B : Type} `{Device.Interface B}.
Import StickyDevice.

(** X13: A [StickyDevice] with lifetime [L] reads, at tick [n], what the
    wrapped device read at tick [min(n, L)]: it follows the wrapped device
    for [L] ticks and then repeats its reading of tick [L] for ever; with
    [L <= 0] it repeats the reading taken at its construction. *)
Theorem StickyDevice_lifetime (nm : string) (b : B) (L : Z) sched n g :
  Device.get (fst (run Device.step sched n (init nm b L) g))
  = Device.get (fst (run Device.step sched (Nat.min n (Z.to_nat L)) b g)).
Proof.
  cbn [Device.get device]. unfold get.
  induction n as [|n IH]; [reflexivity|].
  rewrite StickyDevice_value_step. cbn [init time_remaining base_device].
  rewrite tick_down_iter.
  destruct (Z.ltb_spec L 0).
  - destruct (Z.gtb_spec L 0); [lia|]. rewrite IH.
    replace (Z.to_nat L) with 0%nat by lia.
    rewrite !Nat.min_0_r. reflexivity.
  - destruct (Z.gtb_spec (Z.max 0 (L - Z.of_nat n)) 0).
    + replace (Nat.min (S n) (Z.to_nat L)) with (S n) by lia. reflexivity.
    + rewrite IH. f_equal. f_equal. f_equal. lia.
Qed.

Lemma StickyDevice_metadata (self : state B) sched n g :
  Device.get_influx_meas (fst (run Device.step sched n self g))
  = Device.get_influx_meas
      (fst (run Device.step sched n (base_device self) g)) /\
  Device.get_tags (fst (run Device.step sched n self g))
  = Device.get_tags (fst (run Device.step sched n (base_device self) g)).
Proof.
  destruct (StickyDevice_run sched n self g) as (Hb & _ & _).
  cbn [Device.get_influx_meas Device.get_tags device].
  unfold get_influx_meas, get_tags. rewrite Hb. split; reflexivity.
Qed.

End StickyDevice_more.

Section BasicDevice_more.
Import BasicDevice.

Lemma BasicDevice_step_fields rd self g :
  let self' := fst (step rd self g) in
  name self' = name self /\ measurement self' = measurement self /\
  p_skip self' = p_skip self /\ tags self' = tags self /\
  influx_meas self' = influx_meas self.
Proof.
  unfold step, bind, random, ret.
  destruct (Qeq_bool (p_skip self) 0).
  - destruct (Measurement.get rd (measurement self) g) as [v g1].
    cbn [set_value p_skip measurement].
    destruct (Qltb _ _); [cbn; auto|].
    destruct (Measurement.get rd (measurement self) (advance g1)).
    cbn; auto.
  - destruct (Qltb _ _); [cbn; auto|].
    destruct (Measurement.get rd (measurement self) (advance g)).
    cbn; auto.
Qed.

Lemma BasicDevice_run_fields sched n self g :
  let self' := fst (run step sched n self g) in
  get_influx_meas self' = get_influx_meas self /\
  get_tags self' = get_tags self /\
  name self' = name self /\ measurement self' = measurement self /\
  p_skip self' = p_skip self.
Proof.
  unfold get_influx_meas, get_tags.
  induction n as [|n IH]; [cbn; auto|].
  cbn [run]. unfold bind. destruct (run step sched n self g) as [s' g'].
  cbn [fst] in IH. destruct IH as (Hm & Ht & Hn & Hme & Hp).
  destruct (BasicDevice_step_fields (sched n) s' g')
    as (Hn' & Hme' & Hp' & Ht' & Hm').
  cbv zeta. repeat split; congruence.
Qed.

(** X14: The measurement name and the tags of a [BasicDevice] never change,
    however often it is stepped and whatever it reads or skips. *)
Theorem BasicDevice_metadata_invariant sched n self g :
  get_influx_meas (fst (run step sched n self g)) = get_influx_meas self /\
  get_tags (fst (run step sched n self g)) = get_tags self.
Proof.
  destruct (BasicDevice_run_fields sched n self g) as (Hm & Ht & _).
  split; assumption.
Qed.

(** A device that never skips and does not distort: [p_skip <= 0] and the
    identity as distortion (what [perfect_device] builds). *)
Lemma BasicDevice_step_perfect rd self g :
  (p_skip self <= 0)%Q ->
  Measurement.distortion (measurement self) = identity ->
  fair g ->
  step rd self g
  = (set_value self (Some (rd (Measurement.process (measurement self)))),
     advance g).
Proof.
  intros Hp Hid Hg. unfold step, bind, random, ret, Measurement.get.
  destruct (Qeq_bool (p_skip self) 0);
    cbn [set_value p_skip measurement]; rewrite ?Hid;
    unfold identity, ret; cbn [set_value p_skip measurement];
    (rewrite Qltb_never; [|apply Hg|exact Hp]);
    rewrite ?Hid; reflexivity.
Qed.

(** X16: A [BasicDevice] with [p_skip <= 0] and the identity as distortion
    reads, after every call of [step()], the value that its process has at
    that tick: it is never absent and never stale. *)
Theorem BasicDevice_perfect_reads_process sched n self g :
  (p_skip self <= 0)%Q ->
  Measurement.distortion (measurement self) = identity ->
  fair g ->
  get (fst (run step sched (S n) self g))
  = Some (sched n (Measurement.process (measurement self))).
Proof.
  intros Hp Hid Hg.
  assert (Hrng : forall k, snd (run step sched k self g)
                           = Nat.iter k advance g).
  { induction k as [|k IH]; [reflexivity|]. cbn [run]. unfold bind.
    pose proof (BasicDevice_run_fields sched k self g) as Hmeta.
    destruct (run step sched k self g) as [s' g']. cbn [fst snd] in *.
    destruct Hmeta as (_ & _ & _ & Hme & Hps). subst g'.
    rewrite BasicDevice_step_perfect; [reflexivity| | |].
    - rewrite Hps. exact Hp.
    - rewrite Hme. exact Hid.
    - apply fair_iter_advance. exact Hg. }
  cbn [run]. unfold bind.
  pose proof (BasicDevice_run_fields sched n self g) as Hmeta.
  specialize (Hrng n).
  destruct (run step sched n self g) as [s' g']. cbn [fst snd] in *.
  destruct Hmeta as (_ & _ & _ & Hme & Hps). subst g'.
  rewrite BasicDevice_step_perfect.
  - cbn. rewrite Hme. reflexivity.
  - rewrite Hps. exact Hp.
  - rewrite Hme. exact Hid.
  - apply fair_iter_advance. exact Hg.
Qed.

End BasicDevice_more.

(** X15: A wrapper around a [BasicDevice], and a wrapper around such a wrapper,
    report the measurement name and the tags of the [BasicDevice] at every
    tick. *)
Theorem Wrapped_metadata_invariant (b : BasicDevice.state)
    (nm1 nm2 : string) (L1 L2 : Z) sched n g :
  let doomed := DoomedDevice.init nm1 b L1 in
  let sticky := StickyDevice.init nm1 b L1 in
  let both := DoomedDevice.init nm2 sticky L2 in
  (Device.get_influx_meas (fst (run Device.step sched n doomed g))
   = BasicDevice.influx_meas b /\
   Device.get_tags (fst (run Device.step sched n doomed g))
   = BasicDevice.tags b) /\
  (Device.get_influx_meas (fst (run Device.step sched n sticky g))
   = BasicDevice.influx_meas b /\
   Device.get_tags (fst (run Device.step sched n sticky g))
   = BasicDevice.tags b) /\
  (Device.get_influx_meas (fst (run Device.step sched n both g))
   = BasicDevice.influx_meas b /\
   Device.get_tags (fst (run Device.step sched n both g))
   = BasicDevice.tags b).
Proof.
  cbv zeta.
  pose proof (BasicDevice_run_fields sched n b g) as (Hm & Ht & _).
  cbv zeta in Hm, Ht.
  assert (Hd := DoomedDevice_metadata (DoomedDevice.init nm1 b L1) sched n g).
  assert (Hs := StickyDevice_metadata (StickyDevice.init nm1 b L1) sched n g).
  assert (Hb := DoomedDevice_metadata
                  (DoomedDevice.init nm2 (StickyDevice.init nm1 b L1) L2)
                  sched n g).
  cbn [DoomedDevice.init DoomedDevice.base_device
       StickyDevice.init StickyDevice.base_device] in Hd, Hs, Hb.
  destruct Hd as [Hd1 Hd2], Hs as [Hs1 Hs2], Hb as [Hb1 Hb2].
  repeat split; try congruence.
  - rewrite Hd1. exact Hm.
  - rewrite Hd2. exact Ht.
  - rewrite Hs1. exact Hm.
  - rewrite Hs2. exact Ht.
  - rewrite Hb1, Hs1. exact Hm.
  - rewrite Hb2, Hs2. exact Ht.
Qed.

Lemma BasicDevice_perfect_reads_process_witness :
  BasicDevice.get
    (fst (run BasicDevice.step counting 4 (thermometer 0%Q 1%Q) rng_half))
  = Some (counting 3 0%nat).
Proof.
  apply (BasicDevice_perfect_reads_process counting 3 (thermometer 0%Q 1%Q)
           rng_half).
  - discriminate.
  - reflexivity.
  - exact rng_half_fair.
Defined.

(** ** Environment, continued *)

Section Environment_more.
Import Environment.

Lemma Environment_step_processes_length done rest g ps :
  fst (step_processes done rest g) = Ok ps ->
  length ps = (length done + length rest)%nat.
Proof.
  revert done g. induction rest as [|p rest IH]; intros done g Hrun.
  - simpl in Hrun. injection Hrun as <-. simpl. lia.
  - cbn [step_processes] in Hrun. unfold bind in Hrun.
    destruct (process_step (readings_of (done ++ p :: rest)) p g)
      as [[p'|e] g1]; [|discriminate Hrun].
    apply IH in Hrun. rewrite Hrun, length_app. simpl. lia.
Qed.

Lemma Environment_step_devices_length rd ds g :
  length (fst (step_devices rd ds g)) = length ds.
Proof.
  revert g. induction ds as [|d ds IH]; intros g; [reflexivity|].
  cbn [step_devices]. unfold bind.
  destruct (device_step rd d g) as [d' g1]. specialize (IH g1).
  destruct (step_devices rd ds g1) as [ds' g2]. cbn [fst ret length] in *.
  rewrite IH. reflexivity.
Qed.

Lemma Environment_points_length bucket ds ptss :
  Forall2 (fun d pts => point_of bucket d = Ok pts) ds ptss ->
  (length (concat ptss) <= length ds)%nat.
Proof.
  induction 1 as [|d pts ds ptss Hpts _ IH]; [reflexivity|].
  cbn [concat]. rewrite length_app. simpl.
  assert (length pts <= 1)%nat; [|lia].
  unfold point_of in Hpts. destruct (device_get d) as [v|].
  - destruct (float v); [|discriminate Hpts].
    injection Hpts as <-. simpl. lia.
  - injection Hpts as <-. simpl. lia.
Qed.

(** X17: In one turn of the live loop that does not raise, the processes
    are stepped, then the devices are stepped in their order against the
    stepped processes (none is added or lost), and the log grows, device by
    device, by nothing for a device whose reading after its step is absent
    and by one point for any other: its measurement name, the field
    [value] holding [float()] of the reading, and its tags. *)
Theorem Environment_influx_tick_log bucket self api g self' api' :
  fst (influx_tick bucket self api g) = Ok (self', api') ->
  fst (step_processes [] (processes self) g) = Ok (processes self') /\
  devices self'
  = fst (step_devices (readings_of (processes self')) (devices self)
           (snd (step_processes [] (processes self) g))) /\
  (exists ptss,
     Forall2 (fun d pts => point_of bucket d = Ok pts) (devices self') ptss /\
     api' = api ++ concat ptss) /\
  length (devices self') = length (devices self) /\
  length (processes self') = length (processes self).
Proof.
  unfold influx_tick, bind. intros Hrun.
  pose proof (Environment_step_processes_length [] (processes self) g)
    as Hlen.
  destruct (step_processes [] (processes self) g) as [[ps|e] g1];
    [|discriminate Hrun].
  specialize (Hlen ps eq_refl).
  pose proof (Environment_influx_devices_log (readings_of ps) bucket
                (devices self) api g1) as Hlog.
  destruct (influx_devices (readings_of ps) bucket (devices self) api g1)
    as [[[ds' api1]|e] g2]; [|discriminate Hrun].
  cbn [fst snd ret] in *. injection Hrun as <- <-.
  destruct (Hlog ds' api1 eq_refl) as (Hds & Hpts).
  cbn [devices processes]. split; [reflexivity|]. split; [exact Hds|].
  split; [exact Hpts|]. split; [|exact Hlen].
  rewrite Hds. apply Environment_step_devices_length.
Qed.

(** X18: The live loop only appends: after [n] turns without exception, what
    was written before is still the beginning of the log, at most one point
    per device and turn has been added, and the registries have kept their
    sizes. *)
Theorem Environment_run_influx_appends n bucket self api g self' api' :
  fst (run_influx n bucket self api g) = Ok (self', api') ->
  exists added, api' = api ++ added /\
    (length added <= n * length (devices self))%nat /\
    length (devices self') = length (devices self) /\
    length (processes self') = length (processes self).
Proof.
  revert self' api'. induction n as [|n IH]; intros self' api' Hrun.
  - simpl in Hrun. injection Hrun as <- <-. exists [].
    rewrite app_nil_r. simpl. auto.
  - cbn [run_influx] in Hrun. unfold bind in Hrun.
    destruct (run_influx n bucket self api g) as [[[self1 api1]|e] g1];
      [|discriminate Hrun].
    cbn [fst] in IH.
    destruct (IH self1 api1 eq_refl) as (added & -> & Hn & Hd & Hp).
    unfold influx_tick, bind in Hrun.
    pose proof (Environment_step_processes_length [] (processes self1) g1)
      as Hlen.
    destruct (step_processes [] (processes self1) g1) as [[ps|e] g2];
      [|discriminate Hrun].
    specialize (Hlen ps eq_refl).
    pose proof (Environment_influx_devices_log (readings_of ps) bucket
                  (devices self1) (api ++ added) g2) as Hlog.
    destruct (influx_devices (readings_of ps) bucket (devices self1)
                (api ++ added) g2) as [[[ds' api2]|e] g3];
      [|discriminate Hrun].
    cbn [fst snd ret] in *. injection Hrun as <- <-.
    destruct (Hlog ds' api2 eq_refl) as (Hds & ptss & Hall & ->).
    pose proof (Environment_points_length bucket ds' ptss Hall) as Hpts.
    assert (Hd' : length ds' = length (devices self1)).
    { rewrite Hds. apply Environment_step_devices_length. }
    cbn [devices processes].
    exists (added ++ concat ptss).
    rewrite app_assoc. split; [reflexivity|].
    rewrite length_app. simpl in Hlen. rewrite Nat.mul_succ_l.
    repeat split; lia.
Qed.

Lemma Environment_step_processes_pw rest done g ps i pw :
  fst (step_processes done rest g) = Ok ps ->
  (done ++ rest) !! i = Some (Proc pw) ->
  ((i < length done)%nat -> ps !! i = Some (Proc pw)) /\
  ((length done <= i)%nat ->
   exists pw', PwConstantProcess.step pw = Ok pw' /\
               ps !! i = Some (Proc pw')).
Proof.
  revert done g i pw.
  induction rest as [|p rest IH]; intros done g i pw Hrun Hi.
  - simpl in Hrun. injection Hrun as <-. rewrite app_nil_r in Hi.
    split; [intros _; exact Hi|].
    intros Hge. apply lookup_lt_Some in Hi. lia.
  - cbn [step_processes] in Hrun. unfold bind in Hrun.
    destruct (process_step (readings_of (done ++ p :: rest)) p g)
      as [[p'|e] g1] eqn:Hstep; [|discriminate Hrun].
    destruct (Nat.lt_trichotomy i (length done)) as [Hlt|[Heq|Hgt]].
    + split; [intros _|lia].
      apply (IH (done ++ [p']) g1 i pw Hrun).
      * rewrite <- app_assoc. rewrite lookup_app_l by exact Hlt.
        rewrite lookup_app_l in Hi by exact Hlt. exact Hi.
      * rewrite length_app. simpl. lia.
    + split; [lia|intros _]. subst i.
      rewrite list_lookup_middle in Hi by reflexivity.
      injection Hi as ->. cbn in Hstep. unfold bind, ret in Hstep.
      destruct (PwConstantProcess.step pw) as [pw'|e] eqn:Hpw;
        [|discriminate Hstep].
      injection Hstep as <- <-. exists pw'. split; [reflexivity|].
      apply (IH (done ++ [Proc pw']) g (length done) pw' Hrun).
      * rewrite <- app_assoc. apply list_lookup_middle. reflexivity.
      * rewrite length_app. simpl. lia.
    + split; [lia|intros _].
      apply (IH (done ++ [p']) g1 i pw Hrun).
      * rewrite <- app_assoc. cbn [app].
        rewrite lookup_app_r in Hi by lia.
        rewrite lookup_app_r by lia.
        destruct (i - length done)%nat as [|j] eqn:Hj; [lia|].
        exact Hi.
      * rewrite length_app. simpl. lia.
Qed.

Lemma Environment_run_influx_pw n bucket self api g self' api' i pw :
  fst (run_influx n bucket self api g) = Ok (self', api') ->
  processes self !! i = Some (Proc pw) ->
  exists pw', PwConstantProcess.steps n pw = Ok pw' /\
              processes self' !! i = Some (Proc pw').
Proof.
  revert self' api'. induction n as [|n IH]; intros self' api' Hrun Hi.
  - simpl in Hrun. injection Hrun as <- <-. exists pw. auto.
  - cbn [run_influx] in Hrun. unfold bind in Hrun.
    destruct (run_influx n bucket self api g) as [[[self1 api1]|e] g1];
      [|discriminate Hrun].
    cbn [fst] in IH. destruct (IH self1 api1 eq_refl Hi) as (pw1 & Hs & Hi1).
    unfold influx_tick, bind in Hrun.
    pose proof (Environment_step_processes_pw (processes self1) [] g1)
      as Hpw.
    destruct (step_processes [] (processes self1) g1) as [[ps|e] g2];
      [|discriminate Hrun].
    destruct (Hpw ps i pw1 eq_refl Hi1) as [_ Hnew].
    destruct (Hnew ltac:(simpl; lia)) as (pw' & Hstep & Hi').
    destruct (influx_devices (readings_of ps) bucket (devices self1) api1 g2)
      as [[[ds' api2]|e] g3]; [|discriminate Hrun].
    cbn [fst snd ret] in Hrun. injection Hrun as <- <-.
    exists pw'. simpl. rewrite Hs. cbn [result_bind processes]. auto.
Qed.

(** X19: The live loop cannot run for ever on an environment in which a
    non-seasonal [PwConstantProcess] is registered: from some turn on it
    has been ended by an exception, whatever the other processes, the
    devices and the random draws are. *)
Theorem Environment_run_influx_crashes self i pw :
  processes self !! i = Some (Proc pw) ->
  PwConstantProcess.seasonal pw = false ->
  exists N, forall n bucket api g, (N <= n)%nat ->
    exists e, fst (run_influx n bucket self api g) = Raise e.
Proof.
  intros Hi Hs.
  destruct (PwConstantProcess_non_seasonal_exhausts
              (length (PwConstantProcess.phase_lengths pw)
               - PwConstantProcess.phase pw)
              (Z.to_nat (match PwConstantProcess.phase_lengths pw
                               !! PwConstantProcess.phase pw with
                         | Some l => l - PwConstantProcess.t pw
                         | None => 0
                         end))
              pw Hs) as [N HN].
  - lia.
  - intros len Hlen. rewrite Hlen. lia.
  - exists N. intros n bucket api g Hn.
    pose proof (PwConstantProcess_raised_for_good N n pw HN Hn) as Hraise.
    destruct (fst (run_influx n bucket self api g))
      as [[self' api']|e] eqn:Hrun; [|exists e; reflexivity].
    destruct (Environment_run_influx_pw n bucket self api g self' api' i pw
                Hrun Hi) as (pw' & Hok & _).
    rewrite Hraise in Hok. discriminate Hok.
Qed.

Lemma Environment_influx_devices_perfect rd bucket bs api g ds' api' :
  Forall perfect bs -> fair g ->
  fst (influx_devices rd bucket (map (fun b => Dev b) bs) api g)
  = Ok (ds', api') ->
  exists fs,
    Forall2 (fun b f =>
               float (rd (Measurement.process (BasicDevice.measurement b)))
               = Ok f) bs fs /\
    api' = api ++ zip_with (basic_point bucket) bs fs.
Proof.
  intros Hbs. revert api g ds' api'.
  induction Hbs as [|b bs [Hp Hid] _ IH]; intros api g ds' api' Hg Hrun.
  - simpl in Hrun. injection Hrun as <- <-. exists [].
    split; [constructor|]. simpl. rewrite app_nil_r. reflexivity.
  - cbn [map influx_devices] in Hrun. unfold bind at 1 in Hrun.
    cbn [device_step] in Hrun. unfold bind at 1, ret at 1 in Hrun.
    cbn [Device.step BasicDevice.device] in Hrun.
    rewrite (BasicDevice_step_perfect rd b g Hp Hid Hg) in Hrun.
    unfold write_device in Hrun.
    cbn [device_get Device.get BasicDevice.device] in Hrun.
    unfold BasicDevice.get in Hrun.
    cbn [BasicDevice.set_value BasicDevice.value] in Hrun.
    destruct (float (rd (Measurement.process (BasicDevice.measurement b))))
      as [f|e] eqn:Hf; cbn [result_bind] in Hrun; [|discriminate Hrun].
    unfold bind in Hrun.
    match type of Hrun with
      context [influx_devices rd bucket _ ?api1 (advance g)] =>
        specialize (IH api1 (advance g));
        destruct (influx_devices rd bucket (map (fun b => Dev b) bs) api1
                    (advance g)) as [[[ds1 api2]|e] g2];
        [|discriminate Hrun]
    end.
    cbn [fst ret] in *. injection Hrun as <- <-.
    destruct (IH ds1 api2 (fair_advance g Hg) eq_refl) as (fs & Hall & ->).
    exists (f :: fs). split; [constructor; assumption|].
    cbn. rewrite <- app_assoc. reflexivity.
Qed.

(** X20: All processes are stepped before any device reads them: in a turn
    of the live loop on devices without skips and distortion, every device
    logs one point, and its value is [float()] of the value that the
    device's process has after this turn's step. *)
Theorem Environment_perfect_devices_log bucket self api g bs self' api' :
  devices self = map (fun b => Dev b) bs ->
  Forall perfect bs ->
  fair (snd (step_processes [] (processes self) g)) ->
  fst (influx_tick bucket self api g) = Ok (self', api') ->
  exists fs,
    Forall2 (fun b f =>
               float (readings_of (processes self')
                        (Measurement.process (BasicDevice.measurement b)))
               = Ok f) bs fs /\
    api' = api ++ zip_with (basic_point bucket) bs fs.
Proof.
  intros Hds Hbs Hg. unfold influx_tick, bind. intros Hrun.
  destruct (step_processes [] (processes self) g) as [[ps|e] g1];
    [|discriminate Hrun].
  cbn [snd] in Hg. rewrite Hds in Hrun.
  pose proof (Environment_influx_devices_perfect (readings_of ps) bucket bs
                api g1) as Hlog.
  destruct (influx_devices (readings_of ps) bucket
              (map (fun b => Dev b) bs) api g1) as [[[ds' api1]|e] g2];
    [|discriminate Hrun].
  cbn [fst snd ret] in *. injection Hrun as <- <-.
  cbn [processes]. exact (Hlog ds' api1 Hbs Hg eq_refl).
Qed.

End Environment_more.

Lemma stamps_length steps dt time k :
  length (stamps steps dt time k) = (steps * k)%nat.
Proof.
  revert time. induction steps as [|steps IH]; intros time; [reflexivity|].
  cbn [stamps]. rewrite length_app, length_replicate, IH. simpl. lia.
Qed.

Lemma stamps_lookup steps dt time k i :
  (i < steps * k)%nat ->
  stamps steps dt time k !! i = Some (time + Z.of_nat (i / k) * dt).
Proof.
  revert time i. induction steps as [|steps IH]; intros time i Hi; [lia|].
  assert (Hk : (0 < k)%nat) by (destruct k; lia).
  cbn [stamps]. destruct (Nat.lt_ge_cases i k) as [Hlt|Hge].
  - rewrite lookup_app_l by (rewrite length_replicate; exact Hlt).
    rewrite lookup_replicate_2 by exact Hlt.
    rewrite Nat.div_small by exact Hlt. f_equal. lia.
  - rewrite lookup_app_r by (rewrite length_replicate; exact Hge).
    rewrite length_replicate. rewrite IH by (simpl in Hi; lia).
    replace i with ((i - k) + 1 * k)%nat at 2 by lia.
    rewrite Nat.div_add by lia. f_equal. lia.
Qed.

Section Environment_batch.
Import Environment.

Lemma Environment_generate_devices_length rd time ds file g ds' file' :
  fst (generate_devices rd time ds file g) = Ok (ds', file') ->
  length ds' = length ds.
Proof.
  revert file g ds' file'. induction ds as [|d ds IH];
    intros file g ds' file' Hrun.
  - simpl in Hrun. injection Hrun as <- <-. reflexivity.
  - cbn [generate_devices] in Hrun. unfold bind at 1 in Hrun.
    destruct (device_step rd d g) as [d' g1].
    destruct (row d' time) as [line|e]; [|discriminate Hrun].
    unfold bind in Hrun. specialize (IH (file ++ [line]) g1).
    destruct (generate_devices rd time ds (file ++ [line]) g1)
      as [[[ds1 file1]|e] g2]; cbn [fst ret] in *; [|discriminate Hrun].
    injection Hrun as <- <-. simpl. rewrite (IH ds1 file1 eq_refl).
    reflexivity.
Qed.

Lemma Environment_row_time d time line :
  row d time = Ok line -> row_time line = Some time.
Proof.
  unfold row. destruct (item _ "room_id"); [|discriminate].
  destruct (item _ "sensor_id"); [|discriminate].
  cbn [result_bind]. intros H. injection H as <-. reflexivity.
Qed.

Lemma Environment_generate_loop_stamps steps dt time self file g self' file' :
  fst (generate_loop steps dt time self file g) = Ok (self', file') ->
  exists rows, file' = file ++ rows /\
    map row_time rows
    = map Some (stamps steps dt time (length (devices self))).
Proof.
  revert time self file g. induction steps as [|steps IH];
    intros time self file g Hrun.
  - simpl in Hrun. injection Hrun as <- <-. exists [].
    rewrite app_nil_r. split; reflexivity.
  - cbn [generate_loop] in Hrun. unfold bind at 1 in Hrun.
    destruct (step_processes [] (processes self) g) as [[ps|e] g1];
      [|discriminate Hrun].
    unfold bind in Hrun.
    pose proof (Environment_generate_devices_rows (readings_of ps) time
                  (devices self) file g1) as Hrows.
    pose proof (Environment_generate_devices_length (readings_of ps) time
                  (devices self) file g1) as Hlen.
    destruct (generate_devices (readings_of ps) time (devices self) file g1)
      as [[[ds file1]|e] g2]; [|discriminate Hrun].
    destruct (Hrows ds file1 eq_refl) as (lines & -> & Hall).
    specialize (Hlen ds _ eq_refl).
    destruct (IH _ _ _ _ Hrun) as (rows & -> & Hrest).
    cbn [devices] in Hrest. rewrite Hlen in Hrest.
    exists (lines ++ rows). rewrite app_assoc. split; [reflexivity|].
    cbn [stamps]. rewrite !map_app, Hrest. f_equal.
    rewrite <- Hlen. clear -Hall.
    induction Hall as [|d line ds lines Hrow _ IHall]; [reflexivity|].
    cbn. rewrite (Environment_row_time d time line Hrow), IHall.
    reflexivity.
Qed.

(** X21: When [generate_data] returns it has made these calls of
    [file.write], in this order and no others: the two header texts, then
    one data row for each device in each step; write number [2 + i] is the
    row stamped [now + (i div number of devices) * dt].  With [steps <= 0]
    only the two header texts are written.  (No call writes a newline: the
    entries follow each other on one line of the file.) *)
Theorem Environment_generate_data_rows now steps dt self g self' file :
  fst (generate_data now steps dt self g) = Ok (self', file) ->
  take 2 file = [Text "#datatype measurement,double,dateTime,tag,tag";
                 Text "m,value,time,room_id,sensor_id"] /\
  length file = (2 + Z.to_nat steps * length (devices self))%nat /\
  forall i, (i < Z.to_nat steps * length (devices self))%nat ->
    exists m value room_id sensor_id,
      file !! (2 + i)%nat
      = Some (Row m value
                (now + Z.of_nat (i / length (devices self)) * dt)
                room_id sensor_id).
Proof.
  unfold generate_data. intros Hrun.
  destruct (Environment_generate_loop_stamps _ _ _ _ _ _ _ _ Hrun)
    as (rows & -> & Hrows).
  assert (Hlen : length rows = (Z.to_nat steps * length (devices self))%nat).
  { rewrite <- (length_map row_time rows), Hrows, length_map.
    apply stamps_length. }
  split; [reflexivity|]. split; [simpl; rewrite Hlen; reflexivity|].
  intros i Hi. cbn [app lookup list_lookup].
  destruct (lookup_lt_is_Some_2 rows i ltac:(lia)) as [line Hline].
  assert (Ht : row_time line
               = Some (now + Z.of_nat (i / length (devices self)) * dt)).
  { pose proof (f_equal (fun l => l !! i) Hrows) as Hi'. cbv beta in Hi'.
    rewrite !list_lookup_fmap, Hline in Hi'.
    rewrite (stamps_lookup _ _ _ _ _ Hi) in Hi'. cbn in Hi'.
    injection Hi' as Hi'. exact Hi'. }
  destruct line as [s|m v time r sid]; [discriminate Ht|].
  injection Ht as ->. exists m, v, r, sid. exact Hline.
Qed.

(** X22: A [BasicDevice] whose tags lack [room_id] or [sensor_id] ends
    [generate_data] with [KeyError] in the first step, when its row is
    formatted (unless a process has raised before). *)
Theorem Environment_generate_data_missing_tag now steps dt self g b ds :
  devices self = Dev b :: ds ->
  BasicDevice.tags b !! "room_id" = None \/
  BasicDevice.tags b !! "sensor_id" = None ->
  0 < steps ->
  match fst (step_processes [] (processes self) g) with
  | Ok _ => fst (generate_data now steps dt self g) = Raise KeyError
  | Raise e => fst (generate_data now steps dt self g) = Raise e
  end.
Proof.
  intros Hds Htag Hsteps. unfold generate_data.
  destruct (Z.to_nat steps) as [|k] eqn:Hk; [lia|].
  destruct (step_processes [] (processes self) g) as [[ps|e] g1] eqn:E;
    cbn [fst generate_loop]; unfold bind at 1; rewrite E; [|reflexivity].
  rewrite Hds. cbn [generate_devices]. unfold bind at 1 2.
  cbn [device_step]. unfold bind at 1, ret at 1.
  pose proof (BasicDevice_step_fields (readings_of ps) b g1) as Hf.
  cbn [Device.step BasicDevice.device].
  destruct (BasicDevice.step (readings_of ps) b g1) as [b' g2].
  cbn [fst] in Hf. destruct Hf as (_ & _ & _ & Ht & _).
  unfold row, item. cbn [device_get_tags Device.get_tags BasicDevice.device].
  unfold BasicDevice.get_tags. rewrite Ht.
  destruct Htag as [Hroom|Hsensor].
  - rewrite Hroom. reflexivity.
  - rewrite Hsensor. destruct (BasicDevice.tags b !! "room_id");
      reflexivity.
Qed.

End Environment_batch.

Lemma Environment_influx_tick_log_witness :
  match fst (Environment.influx_tick "smart_uni" flipping_room []
               rng_half) with
  | Ok (self', api') =>
      fst (Environment.step_processes []
             (Environment.processes flipping_room) rng_half)
      = Ok (Environment.processes self') /\
      Environment.devices self'
      = fst (Environment.step_devices
               (Environment.readings_of (Environment.processes self'))
               (Environment.devices flipping_room)
               (snd (Environment.step_processes []
                       (Environment.processes flipping_room) rng_half))) /\
      (exists ptss,
         Forall2 (fun d pts => point_of "smart_uni" d = Ok pts)
           (Environment.devices self') ptss /\
         api' = [] ++ concat ptss) /\
      length (Environment.devices self')
      = length (Environment.devices flipping_room) /\
      length (Environment.processes self')
      = length (Environment.processes flipping_room)
  | Raise _ => False
  end.
Proof.
  destruct (fst (Environment.influx_tick "smart_uni" flipping_room []
                   rng_half)) as [[self' api']|e] eqn:E.
  - exact (Environment_influx_tick_log _ _ _ _ _ _ E).
  - vm_compute in E. discriminate E.
Defined.

Lemma Environment_run_influx_appends_witness :
  match fst (Environment.run_influx 3 "smart_uni" (one_room 0%Q) []
               rng_half) with
  | Ok (self', api') =>
      exists added, api' = [] ++ added /\
        (length added
         <= 3 * length (Environment.devices (one_room 0%Q)))%nat /\
        length (Environment.devices self')
        = length (Environment.devices (one_room 0%Q)) /\
        length (Environment.processes self')
        = length (Environment.processes (one_room 0%Q))
  | Raise _ => False
  end.
Proof.
  destruct (fst (Environment.run_influx 3 "smart_uni" (one_room 0%Q) []
                   rng_half)) as [[self' api']|e] eqn:E.
  - exact (Environment_run_influx_appends _ _ _ _ _ _ _ E).
  - vm_compute in E. discriminate E.
Defined.

Lemma Environment_run_influx_crashes_witness :
  exists N, forall n bucket api g, (N <= n)%nat ->
    exists e, fst (Environment.run_influx n bucket crashing_room api g)
              = Raise e.
Proof.
  apply (Environment_run_influx_crashes crashing_room 1%nat (pw_3_2 false));
    reflexivity.
Defined.

Lemma Environment_perfect_devices_log_witness :
  match fst (Environment.influx_tick "smart_uni" flipping_room []
               rng_half) with
  | Ok (self', api') =>
      exists fs,
        Forall2 (fun b f =>
                   float (Environment.readings_of
                            (Environment.processes self')
                            (Measurement.process
                               (BasicDevice.measurement b)))
                   = Ok f) [thermometer 0%Q 10%Q] fs /\
        api' = [] ++ zip_with (basic_point "smart_uni")
                        [thermometer 0%Q 10%Q] fs
  | Raise _ => False
  end.
Proof.
  destruct (fst (Environment.influx_tick "smart_uni" flipping_room []
                   rng_half)) as [[self' api']|e] eqn:E.
  - apply (Environment_perfect_devices_log "smart_uni" flipping_room []
             rng_half [thermometer 0%Q 10%Q] self' api').
    + reflexivity.
    + repeat constructor. discriminate.
    + exact rng_half_fair.
    + exact E.
  - vm_compute in E. discriminate E.
Defined.

(** In [flipping_room] the process reads 10 before the turn and 20 after
    its step; the thermometer, stepped after it, logs 20. *)
Example Environment_flipping_room_logs_new_value :
  Environment.readings_of (Environment.processes flipping_room) 0%nat
  = 10%Q /\
  exists self',
    fst (Environment.influx_tick "smart_uni" flipping_room [] rng_half)
    = Ok (self', [basic_point "smart_uni" (thermometer 0%Q 10%Q) 20%Q]).
Proof. split; [reflexivity|]. eexists. vm_compute. reflexivity. Qed.

(** [float()] at the edge of the 53 bits and of the range. *)
Example float_rounds :
  float 21%Q = Ok 21%Q /\
  float (1 # 10) = Ok (3602879701896397 # 36028797018963968)%Q /\
  float (inject_Z (2 ^ 53 + 1)) = Ok (inject_Z (2 ^ 53)) /\
  float (inject_Z (2 ^ 53 + 3)) = Ok (inject_Z (2 ^ 53 + 4)) /\
  float (inject_Z (2 ^ 1024)) = Raise OverflowError.
Proof. repeat split; vm_compute; reflexivity. Qed.

Lemma Environment_generate_data_rows_witness :
  match fst (Environment.generate_data 100 2 10 (one_room 1%Q) rng_half) with
  | Ok (self', file) =>
      take 2 file = [Text "#datatype measurement,double,dateTime,tag,tag";
                     Text "m,value,time,room_id,sensor_id"] /\
      length file
      = (2 + Z.to_nat 2 * length (Environment.devices (one_room 1%Q)))%nat /\
      forall i,
        (i < Z.to_nat 2 * length (Environment.devices (one_room 1%Q)))%nat ->
        exists m value room_id sensor_id,
          file !! (2 + i)%nat
          = Some (Row m value
                    (100 + Z.of_nat
                             (i / length (Environment.devices (one_room 1%Q)))
                           * 10)
                    room_id sensor_id)
  | Raise _ => False
  end.
Proof.
  destruct (fst (Environment.generate_data 100 2 10 (one_room 1%Q) rng_half))
    as [[self' file]|e] eqn:E.
  - exact (Environment_generate_data_rows _ _ _ _ _ _ _ E).
  - vm_compute in E. discriminate E.
Defined.

Lemma Environment_generate_data_missing_tag_witness :
  fst (Environment.generate_data 100 2 10 untagged_room rng_half)
  = Raise KeyError.
Proof.
  exact (Environment_generate_data_missing_tag 100 2 10 untagged_room
           rng_half _ [] eq_refl (or_intror eq_refl) eq_refl).
Defined.

(** ** run_console *)

Section Console_facts.
Import Console.

Lemma Console_devices_basic rd time bs out g :
  console_devices rd time (map (fun b => Obj b) bs) out g
  = (Done (map (fun b => Obj b) (fst (step_basics rd bs g)),
           out ++ map (basic_line time) (fst (step_basics rd bs g))),
     snd (step_basics rd bs g)).
Proof.
  revert out g. induction bs as [|b bs IH]; intros out g.
  - simpl. unfold ret. rewrite app_nil_r. reflexivity.
  - cbn [map console_devices step_basics]. unfold bind at 1 3 5 7.
    cbn [object_step]. unfold bind at 1, ret at 1.
    cbn [Device.step BasicDevice.device].
    destruct (BasicDevice.step rd b g) as [b' g1].
    cbn [print_device name tags basic_attributes getattr].
    unfold bind. rewrite IH.
    destruct (step_basics rd bs g1) as [bs' g2]. cbn [fst snd ret map].
    rewrite <- app_assoc. reflexivity.
Qed.

(** X23: In a turn of the console loop on [BasicDevice]s, after the
    processes are stepped, every device is stepped in its order against the
    stepped processes, and right after its step one line is printed for it:
    its name, the reading it has after that step, present or absent, and
    its tags. *)
Theorem Console_basic_devices_print time self out g bs ps g1 :
  devices self = map (fun b => Obj b) bs ->
  Environment.step_processes [] (processes self) g = (Ok ps, g1) ->
  console_tick time self out g
  = (Done ({| processes := ps;
              devices :=
                map (fun b => Obj b)
                  (fst (step_basics (Environment.readings_of ps) bs g1)) |},
           out ++ map (basic_line time)
                    (fst (step_basics (Environment.readings_of ps) bs g1))),
     snd (step_basics (Environment.readings_of ps) bs g1)).
Proof.
  intros Hds Hps. unfold console_tick, bind. rewrite Hps, Hds.
  rewrite Console_devices_basic. reflexivity.
Qed.

Lemma Console_devices_no_tags rd time bs (d : object) post out g :
  (forall g', print_device time (fst (object_step rd d g'))
              = Failed (AttributeError "tags")) ->
  fst (console_devices rd time (map (fun b => Obj b) bs ++ d :: post) out g)
  = Failed (AttributeError "tags").
Proof.
  intros Hd. revert out g. induction bs as [|b bs IH]; intros out g.
  - cbn [map app console_devices]. unfold bind at 1.
    specialize (Hd g). destruct (object_step rd d g) as [d' g1].
    cbn [fst] in Hd. rewrite Hd. reflexivity.
  - cbn [map app console_devices]. unfold bind at 1.
    cbn [object_step]. unfold bind at 1, ret at 1.
    cbn [Device.step BasicDevice.device].
    destruct (BasicDevice.step rd b g) as [b' g1].
    cbn [print_device name tags basic_attributes getattr].
    unfold bind. specialize (IH (out ++ [{| printed_time := time;
                             printed_name := BasicDevice.name b';
                             printed_value := Device.get b';
                             printed_tags := BasicDevice.tags b' |}]) g1).
    destruct (console_devices rd time
                (map (fun b => Obj b) bs ++ d :: post) _ g1) as [r g2].
    cbn [fst] in IH. subst r. reflexivity.
Qed.

(** X24: [DoomedDevice] and [StickyDevice] assign no [tags] attribute, so the
    console loop does not survive its first turn when one of them is
    registered: after the [BasicDevice]s before it are printed,
    [device.tags] raises [AttributeError] (unless a process has raised
    before). *)
Theorem Console_tick_wrapper_fails {B} `{Device.Interface B}
    time self out g bs (d : object) post :
  devices self = map (fun b => Obj b) bs ++ d :: post ->
  (exists w : DoomedDevice.state B, d = Obj w) \/
  (exists w : StickyDevice.state B, d = Obj w) ->
  match fst (Environment.step_processes [] (processes self) g) with
  | Ok _ => fst (console_tick time self out g)
            = Failed (AttributeError "tags")
  | Raise e => fst (console_tick time self out g) = Failed (Exception e)
  end.
Proof.
  intros Hds Hd. unfold console_tick.
  destruct (Environment.step_processes [] (processes self) g)
    as [[ps|e] g1] eqn:E; cbn [fst]; unfold bind at 1; rewrite E;
    [|reflexivity].
  unfold bind. rewrite Hds.
  pose proof (Console_devices_no_tags (Environment.readings_of ps) time bs d
                post out g1) as Hfail.
  destruct (console_devices (Environment.readings_of ps) time
              (map (fun b => Obj b) bs ++ d :: post) out g1) as [r g2].
  cbn [fst] in Hfail. rewrite Hfail; [reflexivity|].
  intros g'. destruct Hd as [[w ->]|[w ->]]; cbn [object_step];
    unfold bind, ret;
    match goal with |- context [Device.step ?rd ?w ?g] =>
      destruct (Device.step rd w g) end; reflexivity.
Qed.

End Console_facts.

Lemma Console_basic_devices_print_witness :
  fst (Console.console_tick 100 console_room [] rng_half)
  = Console.Done
      ({| Console.processes :=
            [Proc pw_flip_second];
          Console.devices :=
            map (fun b => Console.Obj b)
              [BasicDevice.set_value (thermometer 0%Q 10%Q) (Some 20%Q);
               BasicDevice.set_value (thermometer 1%Q 10%Q) None] |},
       [basic_line 100
          (BasicDevice.set_value (thermometer 0%Q 10%Q) (Some 20%Q));
        basic_line 100
          (BasicDevice.set_value (thermometer 1%Q 10%Q) None)]).
Proof.
  exact (f_equal fst
           (Console_basic_devices_print 100 console_room [] rng_half
              [thermometer 0%Q 10%Q; thermometer 1%Q 10%Q]
              _ _ eq_refl eq_refl)).
Defined.

Lemma Console_tick_wrapper_fails_witness :
  fst (Console.console_tick 100 doomed_room [] rng_half)
  = Console.Failed (Console.AttributeError "tags").
Proof.
  exact (Console_tick_wrapper_fails 100 doomed_room [] rng_half
           [thermometer 0%Q 21%Q]
           (Console.Obj (DoomedDevice.init "temp1" (thermometer 0%Q 21%Q) 5))
           [] eq_refl (or_introl (ex_intro _ _ eq_refl))).
Defined.
